(** * kernel-config: a shallow embedding of [kernel-config/main.py]

    The script offers a curses checklist of kernel boot parameters and
    patches the [GRUB_CMDLINE_LINUX_DEFAULT=] line of [/etc/default/grub].
    Python values are modelled as follows:
    - [str] as [string], [int] as [Z], [list] as [list], [dict] as [gmap];
    - exceptions with a result type [res] ([Ok], [Raise], and [Blocked]
      for a process that still waits for a key);
    - the file system, standard output and the sequence of system
      interactions as an explicit [World] threaded through a state and
      exception monad [M];
    - everything the script cannot control (effective uid, keys typed,
      failures of [cp], [open], [write] and [update-grub]) as an [Env]. *)

From Stdlib Require Import ZArith Ascii.
From stdpp Require Import gmap strings list.

Local Open Scope string_scope.
Local Open Scope list_scope.
Local Open Scope Z_scope.

(** ** Python string operations *)

Module PyStr.

(** [s.startswith(p)] *)
Definition startswith (s p : string) : bool := String.prefix p s.

(** [sep.join(l)] *)
Definition join (sep : string) (l : list string) : string :=
  String.concat sep l.

(** The scan of [s.replace(old, new)] for a non-empty [old]: occurrences
    are found left to right and do not overlap; [skip] counts the
    characters of the current occurrence still to be dropped. *)
Fixpoint replace_go (old new : string) (skip : nat) (s : string) : string :=
  match s with
  | EmptyString => EmptyString
  | String c s' =>
      match skip with
      | S k => replace_go old new k s'
      | O =>
          if String.prefix old s
          then new +:+ replace_go old new (Nat.pred (String.length old)) s'
          else String c (replace_go old new O s')
      end
  end.

(** With an empty [old], Python puts [new] before every character and
    at the end. *)
Fixpoint replace_empty (new s : string) : string :=
  match s with
  | EmptyString => new
  | String c s' => new +:+ String c (replace_empty new s')
  end.

(** [s.replace(old, new)] *)
Definition replace (s old new : string) : string :=
  match old with
  | EmptyString => replace_empty new s
  | String _ _ => replace_go old new O s
  end.

(** Truth value of a [str]: non-empty. *)
Definition truthy (s : string) : bool :=
  match s with
  | EmptyString => false
  | String _ _ => true
  end.

(** [repr(s)] for a string without quotes or escapes. *)
Definition repr (s : string) : string := "'" +:+ s +:+ "'".

(** [repr(l)] for a list of such strings. *)
Definition repr_list (l : list string) : string :=
  "[" +:+ join ", " (repr <$> l) +:+ "]".

End PyStr.

(** ** Exceptions *)

(** What a failing file operation or child process raises. All three are
    subclasses of [Exception]; [fmsg] is [str(e)]. *)
Inductive fault_kind := FOSError | FCalledProcessError | FUnicodeError.

Record fault := Fault { fkind : fault_kind; fmsg : string }.

Inductive exn :=
| KeyError (k : string)
| IndexError
| IOFault (f : fault)
| CursesError (msg : string)
| KeyboardInterrupt
| SystemExit (code : Z).

(** Membership in the class [Exception]: [KeyboardInterrupt] and
    [SystemExit] derive from [BaseException] only. *)
Definition is_Exception (e : exn) : bool :=
  match e with
  | KeyboardInterrupt | SystemExit _ => false
  | _ => true
  end.

(** [str(e)] *)
Definition exn_str (e : exn) : string :=
  match e with
  | KeyError k => PyStr.repr k
  | IndexError => "list index out of range"
  | IOFault f => fmsg f
  | CursesError msg => msg
  | KeyboardInterrupt => EmptyString
  | SystemExit _ => EmptyString
  end.

Inductive res (A : Type) :=
| Ok (a : A)
| Raise (e : exn)
| Blocked.
Arguments Ok {A} a.
Arguments Raise {A} e.
Arguments Blocked {A}.

#[global] Instance res_ret : MRet res := λ A a, Ok a.

#[global] Instance res_bind : MBind res := λ A B k r,
  match r with
  | Ok a => k a
  | Raise e => Raise e
  | Blocked => Blocked
  end.

(** [d[k]] on a dict *)
Definition dict_get {V} (d : gmap string V) (k : string) : res V :=
  match d !! k with
  | Some v => Ok v
  | None => Raise (KeyError k)
  end.

(** [l[i]] on a list, negative indices counting from the end *)
Definition list_get {A} (l : list A) (i : Z) : res A :=
  let n := Z.of_nat (length l) in
  let j := if 0 <=? i then i else n + i in
  if (0 <=? j) && (j <? n)
  then match l !! Z.to_nat j with
       | Some a => Ok a
       | None => Raise IndexError
       end
  else Raise IndexError.

(** ** The parameter catalog *)

Record ParamInfo := { param : string; desc : string; info : string }.

Definition KERNEL_PARAMS : gmap string ParamInfo :=
  list_to_map [
    ("isolcpus",
     {| param := "isolcpus={CORES}";
        desc := "Isolate CPUs from scheduler";
        info := "Essential for RT workloads. Prevents the scheduler from placing tasks on isolated cores." |});
    ("nohz_full",
     {| param := "nohz_full={CORES}";
        desc := "Disable timer ticks on isolated cores";
        info := "Reduces interrupts by disabling periodic timer ticks on specified cores." |});
    ("rcu_nocbs",
     {| param := "rcu_nocbs={CORES}";
        desc := "Move RCU callbacks off isolated cores";
        info := "Reduces CPU overhead by moving RCU grace period handling to other cores." |});
    ("housekeeping",
     {| param := "housekeeping=cpus:0";
        desc := "Keep housekeeping tasks on CPU 0";
        info := "Recommended with isolation. Confines kernel housekeeping to specific cores." |});
    ("intel_pstate",
     {| param := "intel_pstate=disable";
        desc := "Disable Intel P-State driver";
        info := "More predictable performance. Prevents CPU frequency scaling by Intel driver." |});
    ("nosmt",
     {| param := "nosmt";
        desc := "Disable hyperthreading";
        info := "Better cache locality. Disables simultaneous multithreading for more predictable performance." |});
    ("intel_idle_cstate",
     {| param := "intel_idle.max_cstate=0";
        desc := "Disable Intel idle C-states";
        info := "Lowest latency. Prevents CPU from entering power-saving sleep states." |});
    ("processor_cstate",
     {| param := "processor.max_cstate=0";
        desc := "Disable processor C-states";
        info := "Prevents CPU sleep. Keeps processor in highest performance state at all times." |});
    ("mitigations",
     {| param := "mitigations=off";
        desc := "Disable security mitigations";
        info := "Maximum performance (less secure). Disables Spectre/Meltdown mitigations for speed." |});
    ("intel_iommu",
     {| param := "intel_iommu=off";
        desc := "Disable Intel IOMMU";
        info := "Reduces DMA overhead. May improve performance but reduces security isolation." |});
    ("iommu",
     {| param := "iommu=off";
        desc := "Disable generic IOMMU";
        info := "Reduces DMA overhead. Complements intel_iommu=off for maximum DMA performance." |})
  ].

Definition PARAM_ORDER : list string :=
  [ "isolcpus"; "nohz_full"; "rcu_nocbs"; "housekeeping"; "intel_pstate";
    "nosmt"; "intel_idle_cstate"; "processor_cstate"; "mitigations";
    "intel_iommu"; "iommu" ].

(** [len(PARAM_ORDER)] *)
Definition N_PARAMS : Z := Z.of_nat (length PARAM_ORDER).

(** ** The selection menu *)

Record KernelConfigMenu := Menu {
  core_range : string;
  selected : gmap string bool;
  current : Z;
  offset : Z
}.

(** [KernelConfigMenu.__init__] *)
Definition init (cr : string) : KernelConfigMenu :=
  {| core_range := cr;
     selected := foldl (λ d key, <[key := true]> d) ∅ PARAM_ORDER;
     current := 0;
     offset := 0 |}.

(** The [for key in PARAM_ORDER] loop of [get_selected_params]; [params]
    is the list built so far by [params.append]. *)
Fixpoint get_selected_params_loop (cr : string) (sel : gmap string bool)
    (keys : list string) (params : list string) : res (list string) :=
  match keys with
  | [] => Ok params
  | key :: keys' =>
      s ← dict_get sel key;
      if s : bool
      then p ← dict_get KERNEL_PARAMS key;
           get_selected_params_loop cr sel keys'
             (params ++ [PyStr.replace (param p) "{CORES}" cr])
      else get_selected_params_loop cr sel keys' params
  end.

(** [KernelConfigMenu.get_selected_params] *)
Definition get_selected_params (m : KernelConfigMenu) : res string :=
  params ← get_selected_params_loop (core_range m) (selected m) PARAM_ORDER [];
  Ok (PyStr.join " " params).

(** Key codes returned by [stdscr.getch()]: the ncurses values of
    [curses.KEY_DOWN], [curses.KEY_UP], [curses.KEY_ENTER], and [ord] of
    the characters the loop compares with. *)
Definition KEY_DOWN : Z := 258.
Definition KEY_UP : Z := 259.
Definition KEY_ENTER : Z := 343.
Definition ord_space : Z := 32.
Definition ord_newline : Z := 10.
Definition ord_q : Z := 113.
Definition ord_Q : Z := 81.

(** One pass through the body of [while True] in [handle_input] either
    goes round again with the updated menu or returns. *)
Inductive step_result :=
| Continue (m : KernelConfigMenu)
| Return (b : bool).

(** The body of the loop of [handle_input] after [getch] returned [key];
    [height] is the first component of [stdscr.getmaxyx()]. *)
Definition handle_key (height key : Z) (m : KernelConfigMenu) : res step_result :=
  if key =? KEY_UP then
    let cur := Z.max 0 (current m - 1) in
    let off := if cur <? offset m then cur else offset m in
    Ok (Continue {| core_range := core_range m; selected := selected m;
                    current := cur; offset := off |})
  else if key =? KEY_DOWN then
    let cur := Z.min N_PARAMS (current m + 1) in
    let menu_height := height - 6 in
    let off := if cur >=? offset m + menu_height
               then cur - menu_height + 1 else offset m in
    Ok (Continue {| core_range := core_range m; selected := selected m;
                    current := cur; offset := off |})
  else if (key =? ord_space) && (current m <? N_PARAMS) then
    param_key ← list_get PARAM_ORDER (current m);
    old ← dict_get (selected m) param_key;
    Ok (Continue {| core_range := core_range m;
                    selected := <[param_key := negb old]> (selected m);
                    current := current m; offset := offset m |})
  else if (key =? ord_newline) || (key =? KEY_ENTER) then
    if current m =? N_PARAMS then Ok (Return true) else Ok (Continue m)
  else if (key =? ord_q) || (key =? ord_Q) then
    Ok (Return false)
  else Ok (Continue m).

(** ** The world outside the process *)

(** Interactions with the operating system, in the order they happen. *)
Inductive event :=
| EvGeteuid
| EvCurses
| EvGetch
| EvRun (argv : list string)
| EvOpenRead (path : string)
| EvOpenWrite (path : string).

Record World := {
  files : gmap string string;
  stdout : list string;
  trace : list event
}.

(** What the terminal delivers to one round of the menu loop: a key
    together with the terminal height at that moment, an interrupt
    signal while [getch] waits, or a failure of [draw_menu] (curses
    refuses to draw outside the screen). *)
Inductive tty_event :=
| Key (code height : Z)
| Interrupt
| DrawError (msg : string).

(** How writing a file fails: at [open], leaving the file as it was, or
    after [open] truncated it and [written] characters went out. *)
Inductive write_failure :=
| OpenFails (f : fault)
| WriteFails (written : nat) (f : fault).

Record Env := {
  euid : Z;
  tty : list tty_event;
  cp_fault : option fault;
  read_fault : option fault;
  write_fault : option write_failure;
  regen_fault : option fault
}.

(** State and exception monad over the world. *)
Definition M (A : Type) : Type := World → res A * World.

#[global] Instance M_ret : MRet M := λ A a w, (Ok a, w).

#[global] Instance M_bind : MBind M := λ A B k c w,
  match c w with
  | (Ok a, w') => k a w'
  | (Raise e, w') => (Raise e, w')
  | (Blocked, w') => (Blocked, w')
  end.

Definition raise {A} (e : exn) : M A := λ w, (Raise e, w).

Definition block {A} : M A := λ w, (Blocked, w).

Definition lift {A} (r : res A) : M A := λ w, (r, w).

(** [try: body except <class>: handler], the class given by [catches]. *)
Definition try_except {A} (body : M A) (catches : exn → bool)
    (handler : exn → M A) : M A := λ w,
  match body w with
  | (Raise e, w') => if catches e then handler e w' else (Raise e, w')
  | r => r
  end.

(** The three ways the process changes the world. *)
Definition logged (ev : event) (w : World) : World :=
  {| files := files w; stdout := stdout w; trace := trace w ++ [ev] |}.

Definition printed (s : string) (w : World) : World :=
  {| files := files w; stdout := stdout w ++ [s]; trace := trace w |}.

Definition stored (path content : string) (w : World) : World :=
  {| files := <[path := content]> (files w);
     stdout := stdout w; trace := trace w |}.

Definition log (ev : event) : M unit := λ w, (Ok tt, logged ev w).

(** [print(s)] *)
Definition print (s : string) : M unit := λ w, (Ok tt, printed s w).

Definition set_file (path content : string) : M unit := λ w,
  (Ok tt, stored path content w).

(** [sys.exit(code)] *)
Definition sys_exit {A} (code : Z) : M A := raise (SystemExit code).

Definition os_error (msg : string) : exn := IOFault (Fault FOSError msg).

Definition called_process_error (argv : list string) (status : string) : exn :=
  IOFault (Fault FCalledProcessError
    ("Command '" +:+ PyStr.repr_list argv +:+
     "' returned non-zero exit status " +:+ status +:+ ".")).

(** ** Text files *)

Definition LF : ascii := "010"%char.
Definition CR : ascii := "013"%char.
Definition DQUOTE : ascii := "034"%char.

(** Reading in text mode with the default [newline=None]: CR LF and a
    lone CR both arrive as LF. *)
Fixpoint universal_newlines (s : string) : string :=
  match s with
  | EmptyString => EmptyString
  | String c s' =>
      if Ascii.eqb c CR then
        match s' with
        | String c' s'' =>
            if Ascii.eqb c' LF
            then String LF (universal_newlines s'')
            else String LF (universal_newlines s')
        | EmptyString => String LF EmptyString
        end
      else String c (universal_newlines s')
  end.

(** Cutting a text into lines, each keeping its LF; the last one may
    lack it. *)
Fixpoint splitlines_keepends (s : string) : list string :=
  match s with
  | EmptyString => []
  | String c s' =>
      if Ascii.eqb c LF then String c EmptyString :: splitlines_keepends s'
      else match splitlines_keepends s' with
           | [] => [String c EmptyString]
           | l :: ls => String c l :: ls
           end
  end.

(** [f.readlines()] on the content of a file opened with mode ['r'] *)
Definition readlines (content : string) : list string :=
  splitlines_keepends (universal_newlines content).

(** What [f.writelines(lines)] sends to the file *)
Definition writelines (lines : list string) : string :=
  String.concat EmptyString lines.

(** [subprocess.run(["cp", src, dst], check=True)] *)
Definition run_cp (env : Env) (src dst : string) : M unit :=
  log (EvRun ["cp"; src; dst]);;
  match cp_fault env with
  | Some f => raise (IOFault f)
  | None =>
      w ← (λ w, (Ok w, w));
      match files w !! src with
      | Some c => set_file dst c
      | None => raise (called_process_error ["cp"; src; dst] "1")
      end
  end.

(** [with open(path, 'r') as f: lines = f.readlines()] *)
Definition read_lines (env : Env) (path : string) : M (list string) :=
  log (EvOpenRead path);;
  match read_fault env with
  | Some f => raise (IOFault f)
  | None =>
      w ← (λ w, (Ok w, w));
      match files w !! path with
      | Some c => mret (readlines c)
      | None => raise (os_error ("[Errno 2] No such file or directory: "
                                 +:+ PyStr.repr path))
      end
  end.

(** [with open(path, 'w') as f: f.writelines(lines)] *)
Definition write_lines (env : Env) (path : string) (lines : list string) : M unit :=
  log (EvOpenWrite path);;
  match write_fault env with
  | Some (OpenFails f) => raise (IOFault f)
  | Some (WriteFails n f) =>
      set_file path (String.substring 0 n (writelines lines));;
      raise (IOFault f)
  | None => set_file path (writelines lines)
  end.

(** [subprocess.run(["update-grub"], check=True)] *)
Definition run_update_grub (env : Env) : M unit :=
  log (EvRun ["update-grub"]);;
  match regen_fault env with
  | Some f => raise (IOFault f)
  | None => mret tt
  end.

(** ** Patching the configuration *)

Definition grub_config : string := "/etc/default/grub".
Definition grub_backup : string := grub_config +:+ ".backup".
Definition GRUB_PREFIX : string := "GRUB_CMDLINE_LINUX_DEFAULT=".

(** [f'GRUB_CMDLINE_LINUX_DEFAULT="{params}"\n'] *)
Definition assignment_line (params : string) : string :=
  GRUB_PREFIX +:+ String DQUOTE params +:+ String DQUOTE (String LF EmptyString).

(** The [for i, line in enumerate(lines)] loop shared in shape by the
    Writer and the Clearer: [todo] is what the iteration has still to
    visit, [i] the index of its head, [lines] the list being patched.
    The first line starting with the prefix is overwritten in place and
    the loop breaks; the flag tells whether that happened. *)
Fixpoint patch_first (new : string) (i : nat) (todo lines : list string)
    : list string * bool :=
  match todo with
  | [] => (lines, false)
  | line :: todo' =>
      if PyStr.startswith line GRUB_PREFIX
      then (<[i := new]> lines, true)
      else patch_first new (S i) todo' lines
  end.

(** The patch of [update_grub_config]: replace, or append when the loop
    left [updated] false. *)
Definition update_lines (params : string) (lines : list string) : list string :=
  let new := assignment_line params in
  let '(lines', updated) := patch_first new 0 lines lines in
  if updated then lines' else lines' ++ [new].

(** The patch of [clear_grub_config]: the loop alone, there is no
    [updated] flag and no [append]. *)
Definition clear_lines (lines : list string) : list string :=
  fst (patch_first (assignment_line EmptyString) 0 lines lines).

(** [update_grub_config(params)] *)
Definition update_grub_config (env : Env) (params : string) : M bool :=
  try_except
    (run_cp env grub_config grub_backup;;
     lines ← read_lines env grub_config;
     write_lines env grub_config (update_lines params lines);;
     run_update_grub env;;
     mret true)
    is_Exception
    (λ e, print ("Error updating GRUB configuration: " +:+ exn_str e);;
          mret false).

(** [clear_grub_config()] *)
Definition clear_grub_config (env : Env) : M bool :=
  try_except
    (lines ← read_lines env grub_config;
     write_lines env grub_config (clear_lines lines);;
     run_update_grub env;;
     mret true)
    is_Exception
    (λ e, print ("Error clearing GRUB configuration: " +:+ exn_str e);;
          mret false).

(** ** The menu loop and the entry point *)

(** [handle_input]: each round draws the menu, waits for a key and
    handles it. When the terminal has nothing more to deliver, [getch]
    does not return. The menu object is mutated in place, so the state
    it is left in is returned along with the result. *)
Fixpoint handle_input (evs : list tty_event) (m : KernelConfigMenu)
    : M (bool * KernelConfigMenu) :=
  match evs with
  | [] => block
  | DrawError msg :: _ => raise (CursesError msg)
  | Interrupt :: _ => log EvGetch;; raise KeyboardInterrupt
  | Key key height :: evs' =>
      log EvGetch;;
      r ← lift (handle_key height key m);
      match r with
      | Continue m' => handle_input evs' m'
      | Return b => mret (b, m)
      end
  end.

(** [curses.wrapper(menu.handle_input)] *)
Definition curses_wrapper (env : Env) (m : KernelConfigMenu)
    : M (bool * KernelConfigMenu) :=
  log EvCurses;; handle_input (tty env) m.

Definition MSG_ROOT : string :=
  "Error: This script must be run as root (use sudo)".

(** [check_root()] *)
Definition check_root (env : Env) : M unit :=
  log EvGeteuid;;
  if negb (euid env =? 0)
  then print MSG_ROOT;; sys_exit 1
  else mret tt.

Definition is_KeyboardInterrupt (e : exn) : bool :=
  match e with
  | KeyboardInterrupt => true
  | _ => false
  end.

Definition MSG_USAGE : string := "Usage: uv run <enable|disable> [core_range]".
Definition MSG_INSTALLED : string :=
  "✓ Selected kernel parameters installed. Reboot to apply.".
Definition MSG_UPDATE_FAILED : string := "✗ Failed to update kernel parameters.".
Definition MSG_NONE_SELECTED : string := "No parameters selected. Exiting.".
Definition MSG_CANCELLED : string := "Configuration cancelled.".
Definition MSG_CLEARED : string := "✓ Kernel parameters cleared. Reboot to revert.".
Definition MSG_CLEAR_FAILED : string := "✗ Failed to clear kernel parameters.".

(** [f"Error: invalid action '{action}' (use enable|disable)"] *)
Definition MSG_INVALID (action : string) : string :=
  "Error: invalid action '" +:+ action +:+ "' (use enable|disable)".

(** [f"Applying parameters: {selected_params}"] *)
Definition MSG_APPLYING (selected_params : string) : string :=
  "Applying parameters: " +:+ selected_params.

(** [main()], with [sys.argv] as [argv] *)
Definition main (env : Env) (argv : list string) : M unit :=
  if Z.of_nat (length argv) <? 2
  then print MSG_USAGE;; sys_exit 1
  else
    check_root env;;
    action ← lift (list_get argv 1);
    core_range ← (if Z.of_nat (length argv) >? 2
                  then lift (list_get argv 2) else mret "1-12");
    if String.eqb action "enable" then
      let menu := init core_range in
      try_except
        ('(apply_config, menu) ← curses_wrapper env menu;
         if apply_config : bool then
           selected_params ← lift (get_selected_params menu);
           if PyStr.truthy selected_params then
             print (MSG_APPLYING selected_params);;
             ok ← update_grub_config env selected_params;
             if ok : bool
             then print MSG_INSTALLED
             else print MSG_UPDATE_FAILED;; sys_exit 1
           else print MSG_NONE_SELECTED
         else print MSG_CANCELLED)
        is_KeyboardInterrupt
        (λ _, print (String LF MSG_CANCELLED);; sys_exit 0)
    else if String.eqb action "disable" then
      ok ← clear_grub_config env;
      if ok : bool
      then print MSG_CLEARED
      else print MSG_CLEAR_FAILED;; sys_exit 1
    else
      print (MSG_INVALID action);;
      sys_exit 1.

(** How the process ends: with an exit status, with a traceback of an
    exception nobody caught, or not at all. *)
Inductive outcome :=
| Exited (code : Z)
| Crashed (e : exn)
| Waiting.

(** What becomes of the process when [main()] is over: status 0 after a
    normal return, the status given to [sys.exit], a traceback for any
    other exception. *)
Definition process_exit (r : res unit) : outcome :=
  match r with
  | Ok _ => Exited 0
  | Raise (SystemExit code) => Exited code
  | Raise e => Crashed e
  | Blocked => Waiting
  end.

(** [if __name__ == "__main__": main()] *)
Definition run_main (env : Env) (argv : list string) (w : World) : outcome * World :=
  let '(r, w') := main env argv w in (process_exit r, w').

(** ** What the specification says, in its own words *)

Module Spec.

(** The template of a catalog key. *)
Definition template (key : string) : string :=
  match KERNEL_PARAMS !! key with
  | Some p => param p
  | None => EmptyString
  end.

(** A template with the placeholder replaced by the core range. *)
Definition render (cr key : string) : string :=
  PyStr.replace (template key) "{CORES}" cr.

(** The keys of the catalog, in catalog order, that the selection
    state maps to true. *)
Definition chosen (sel : gmap string bool) : list string :=
  filter (λ key, sel !! key = Some true) PARAM_ORDER.

(** The space-joined concatenation of the rendered templates of the
    chosen keys. *)
Definition selected_params (cr : string) (sel : gmap string bool) : string :=
  PyStr.join " " (render cr <$> chosen sel).

(** A line that is not the assignment of the kernel command line. *)
Definition unrelated (line : string) : Prop :=
  PyStr.startswith line GRUB_PREFIX = false.

(** [lines] holds an assignment line, [l] is the first one, and [out]
    is [lines] with [l] replaced by [new]. *)
Definition replaces_first (new : string) (lines out : list string) : Prop :=
  ∃ (pre : list string) (l : string) (post : list string),
    lines = (pre ++ l :: post)%list ∧
    Forall unrelated pre ∧
    PyStr.startswith l GRUB_PREFIX = true ∧
    out = (pre ++ new :: post)%list.

End Spec.

(** ** Vocabulary of the statements *)

(** The selection state has an entry for every key of the catalog: the
    invariant [__init__] sets up. *)
Definition total_selection (sel : gmap string bool) : Prop :=
  ∀ key, key ∈ PARAM_ORDER → is_Some (sel !! key).

(** Sample data for the examples below. *)
Definition nl (s : string) : string := s +:+ String LF EmptyString.

Definition sample_lines : list string :=
  [ nl "GRUB_TIMEOUT=5";
    nl ("GRUB_CMDLINE_LINUX_DEFAULT=" +:+ String DQUOTE ("quiet splash" +:+ String DQUOTE EmptyString));
    nl "GRUB_CMDLINE_LINUX=" ].

Definition sample_world : World :=
  {| files := {[ grub_config := writelines sample_lines ]};
     stdout := [];
     trace := [] |}.

Definition bare_world : World :=
  {| files := {[ grub_config := nl "GRUB_TIMEOUT=5" ]};
     stdout := [];
     trace := [] |}.

Definition quiet_env (keys : list tty_event) : Env :=
  {| euid := 0; tty := keys; cp_fault := None; read_fault := None;
     write_fault := None; regen_fault := None |}.

(** Command lines and messages of the Writer and the Clearer. *)
Definition CP_ARGV : list string := ["cp"; grub_config; grub_backup].
Definition REGEN_ARGV : list string := ["update-grub"].
Definition MSG_NO_FILE : string :=
  "[Errno 2] No such file or directory: " +:+ PyStr.repr grub_config.
Definition update_error (msg : string) : string :=
  "Error updating GRUB configuration: " +:+ msg.
Definition clear_error (msg : string) : string :=
  "Error clearing GRUB configuration: " +:+ msg.

(** Runs the monadic code as far as the next choice of the environment. *)
Ltac run_M :=
  cbv beta iota zeta delta
    [update_grub_config clear_grub_config try_except run_cp read_lines
     write_lines run_update_grub check_root curses_wrapper sys_exit
     mbind M_bind mret M_ret log set_file raise block lift print
     is_Exception is_KeyboardInterrupt].

Definition cp_fails_env : Env :=
  {| euid := 0; tty := [];
     cp_fault := Some (Fault FCalledProcessError
                         "Command 'cp' returned non-zero exit status 1.");
     read_fault := None; write_fault := None; regen_fault := None |}.

(** What holds of the menu whenever the loop waits for a key. *)
Definition menu_ok (m : KernelConfigMenu) : Prop :=
  0 ≤ current m ≤ N_PARAMS ∧ total_selection (selected m).

(** The menus the loop can be in: the initial one, and those one handled
    key away from one it can be in. *)
Inductive reachable (cr : string) : KernelConfigMenu → Prop :=
| reach_init : reachable cr (init cr)
| reach_step (m m' : KernelConfigMenu) (height key : Z) :
    reachable cr m →
    handle_key height key m = Ok (Continue m') →
    reachable cr m'.

(** Closes the case of a key that leaves the menu as it was. *)
Ltac same_menu :=
  split; [by split |];
  split; [reflexivity |];
  split; [by intros ? |];
  split; [by intros ? |];
  split; [by intros ? |];
  by intros.

(** Two steps down and a toggle, from the initial menu. *)
Definition toggled_menu : KernelConfigMenu :=
  {| core_range := "1-12";
     selected := <["rcu_nocbs" := false]> (selected (init "1-12"));
     current := 2; offset := 0 |}.

(** The world after the menu loop differs from the world before only by
    the keys read. *)
Definition only_keys_read (w w' : World) : Prop :=
  files w' = files w ∧ stdout w' = stdout w ∧
  ∃ n : nat, trace w' = trace w ++ replicate n EvGetch.

(** The core range the command line gives. *)
Definition core_range_arg (rest : list string) : string :=
  match rest with
  | [] => "1-12"
  | cr :: _ => cr
  end.

(** What the [except KeyboardInterrupt] clause and the end of the process
    make of an exception that leaves the [try] block. *)
Definition after_raise (e : exn) (w : World) : outcome * World :=
  match e with
  | KeyboardInterrupt => (Exited 0, printed (String LF MSG_CANCELLED) w)
  | SystemExit code => (Exited code, w)
  | _ => (Crashed e, w)
  end.

(** Runs the entry point as far as the next call or choice. *)
Ltac run_top :=
  cbv beta iota zeta delta
    [main run_main process_exit try_except check_root curses_wrapper sys_exit
     mbind M_bind mret M_ret log raise block lift print
     is_KeyboardInterrupt after_raise].

(** The lines a run prints, by exit status and by the way it ends. *)
Inductive status : Z → list string → Prop :=
| status_usage : status 1 [MSG_USAGE]
| status_privilege : status 1 [MSG_ROOT]
| status_invalid (action : string) : status 1 [MSG_INVALID action]
| status_cancelled : status 0 [MSG_CANCELLED]
| status_interrupted : status 0 [String LF MSG_CANCELLED]
| status_empty : status 0 [MSG_NONE_SELECTED]
| status_applied (params : string) :
    status 0 [MSG_APPLYING params; MSG_INSTALLED]
| status_apply_failed (params cause : string) :
    status 1 [MSG_APPLYING params; update_error cause; MSG_UPDATE_FAILED]
| status_cleared : status 0 [MSG_CLEARED]
| status_clear_failed (cause : string) :
    status 1 [clear_error cause; MSG_CLEAR_FAILED].

(** A stretch of the trace without a privilege query. *)
Definition no_euid (t : list event) : Prop :=
  Forall (λ ev, ev ≠ EvGeteuid) t.

(** [w'] is [w] after printing [out] and doing [t]. *)
Definition extends (w w' : World) (out : list string) (t : list event) : Prop :=
  stdout w' = stdout w ++ out ∧ trace w' = trace w ++ t.

(** Shows that a stretch of the trace holds no privilege query. *)
Ltac solve_no_euid :=
  unfold no_euid in *;
  repeat first
    [ assumption
    | apply Forall_nil_2
    | apply Forall_replicate; discriminate
    | apply Forall_app; split
    | apply Forall_cons; split; [discriminate |] ].

(** Closes a path of [run_main_spec] from the proof [E] that the final
    world extends the initial one. *)
Ltac finish_run E :=
  eexists _, _; split; [exact E |];
  split; [ eexists; split; [reflexivity | solve_no_euid]
         | cbn [app fst]; first [by constructor | by eauto] ].

(** Key scripts: eleven steps down and Enter; a toggle and a step down
    on each of the eleven rows, then Enter. *)
Definition apply_all_keys : list tty_event :=
  replicate 11 (Key KEY_DOWN 24) ++ [Key ord_newline 24].

Definition deselect_all_keys : list tty_event :=
  concat (replicate 11 [Key ord_space 24; Key KEY_DOWN 24]) ++ [Key ord_newline 24].

Definition deselected_menu : KernelConfigMenu :=
  {| core_range := "1-12";
     selected := foldl (λ d key, <[key := false]> d) ∅ PARAM_ORDER;
     current := 11; offset := 0 |}.

Definition deselected_world : World :=
  {| files := files sample_world;
     stdout := [];
     trace := EvGeteuid :: EvCurses :: replicate 23 EvGetch |}.

Definition user_env : Env :=
  {| euid := 1000; tty := apply_all_keys; cp_fault := None;
     read_fault := None; write_fault := None; regen_fault := None |}.

Definition regen_fails_env : Env :=
  {| euid := 0; tty := apply_all_keys; cp_fault := None;
     read_fault := None; write_fault := None;
     regen_fault := Some (Fault FOSError
                            "[Errno 2] No such file or directory: 'update-grub'") |}.

(** ** Vocabulary of the further properties *)

(** A text without carriage returns: reading it in text mode changes
    nothing. *)
Definition no_CR (s : string) : Prop := CR ∉ String.list_ascii_of_string s.

(** At least one entry of the catalog is selected. *)
Definition some_selected (sel : gmap string bool) : Prop :=
  ∃ key, key ∈ PARAM_ORDER ∧ sel !! key = Some true.

(** An environment in which nothing fails. *)
Definition faultless (env : Env) : Prop :=
  cp_fault env = None ∧ read_fault env = None ∧
  write_fault env = None ∧ regen_fault env = None.

(** The focus lies inside the window of [height - 6] rows that starts
    at the scroll offset. *)
Definition window_ok (height : Z) (m : KernelConfigMenu) : Prop :=
  0 ≤ offset m ∧ offset m ≤ current m < offset m + (height - 6).

(** Every key of the script arrives while the terminal is [height] rows
    high. *)
Definition at_height (height : Z) (evs : list tty_event) : Prop :=
  Forall (λ ev, match ev with Key _ h => h = height | _ => True end) evs.

(** The menu and the world once [apply_all_keys] has been read. *)
Definition applied_menu : KernelConfigMenu :=
  {| core_range := "1-12"; selected := selected (init "1-12");
     current := 11; offset := 0 |}.

Definition applied_world : World :=
  {| files := files sample_world;
     stdout := [];
     trace := EvGeteuid :: EvCurses :: replicate 12 EvGetch |}.

(** Twenty steps down and Enter on a terminal of ten rows. *)
Definition scroll_keys : list tty_event :=
  replicate 20 (Key KEY_DOWN 10) ++ [Key KEY_ENTER 10].

(** ** Drawing the menu *)

(** More of Python's [str]: [len(s)], [s[:stop]], [s * n] and the format
    [{s:<width}]. A character outside ASCII in a literal of the script
    stands here as the bytes of its encoding; no length is taken of
    such a literal and none is sliced. *)
Module PyFmt.

Definition len (s : string) : Z := Z.of_nat (String.length s).

(** [s[:stop]]: a negative [stop] counts from the end. *)
Definition slice_to (s : string) (stop : Z) : string :=
  let k := if stop <? 0 then Z.max 0 (len s + stop) else Z.min stop (len s) in
  String.substring 0 (Z.to_nat k) s.

(** [s * n]: empty when [n] is not positive. *)
Definition repeat (s : string) (n : Z) : string :=
  String.concat EmptyString (replicate (Z.to_nat n) s).

(** [f"{s:<width}"]: padded with spaces on the right, never cut. *)
Definition ljust (s : string) (width : Z) : string :=
  s +:+ repeat " " (width - len s).


End PyFmt.








(** [f"  {checkbox} {key:<18} {param_info['desc']}"] cut by
    [line[:width-2]] *)
Definition format_item_line (checked : bool) (key description : string)
    (width : Z) : string :=
  let checkbox := if checked then "[X]" else "[ ]" in
  let line := "  " +:+ checkbox +:+ " " +:+ PyFmt.ljust key 18 +:+ " " +:+ description in
  PyFmt.slice_to line (width - 2).

(** The text of the info panel for a parameter: the rendered parameter,
    a colon and the explanation, shortened with an ellipsis when longer
    than [width - 4]. *)
Definition format_info_text (template explanation cr : string) (width : Z) : string :=
  let info_text := PyStr.replace template "{CORES}" cr +:+ ": " +:+ explanation in
  if PyFmt.len info_text >? width - 4
  then PyFmt.slice_to info_text (width - 7) +:+ "..."
  else info_text.









(** The menu after the twenty steps down of [scroll_keys]. *)
Definition scrolled_menu : KernelConfigMenu :=
  {| core_range := "1-12"; selected := selected (init "1-12");
     current := 11; offset := 8 |}.

(** A selection state that lacks the entry of [nosmt]: no menu the loop
    can reach looks like this. *)
Definition broken_menu : KernelConfigMenu :=
  {| core_range := "1-12";
     selected := delete "nosmt" (selected (init "1-12"));
     current := 0; offset := 0 |}.


(** * Properties *)

(** ** Strings *)

Lemma append_cons (c : ascii) (s t : string) :
  String c s +:+ t = String c (s +:+ t).
Proof. reflexivity. Qed.

Lemma append_empty_r (s : string) : s +:+ EmptyString = s.
Proof.
  induction s as [|c s IH]; [reflexivity |].
  rewrite append_cons. by rewrite IH.
Qed.

Lemma append_assoc (a b c : string) : (a +:+ b) +:+ c = a +:+ (b +:+ c).
Proof.
  induction a as [|x a IH]; [reflexivity |].
  rewrite !append_cons. by rewrite IH.
Qed.

(** [str.replace] on small inputs: every occurrence, left to right,
    without overlap. *)
Example replace_twice :
  PyStr.replace "a={CORES},b={CORES}" "{CORES}" "2-5" = "a=2-5,b=2-5".
Proof. reflexivity. Qed.

Example replace_no_overlap : PyStr.replace "aaa" "aa" "b" = "ba".
Proof. reflexivity. Qed.

Example replace_absent : PyStr.replace "nosmt" "{CORES}" "2-5" = "nosmt".
Proof. reflexivity. Qed.

Lemma template_catalog :
  Spec.template <$> PARAM_ORDER =
  [ "isolcpus={CORES}"; "nohz_full={CORES}"; "rcu_nocbs={CORES}";
    "housekeeping=cpus:0"; "intel_pstate=disable"; "nosmt";
    "intel_idle.max_cstate=0"; "processor.max_cstate=0"; "mitigations=off";
    "intel_iommu=off"; "iommu=off" ].
Proof. vm_compute. reflexivity. Qed.

(** The rendered templates of the whole catalog, in closed form. *)
Lemma render_catalog (cr : string) :
  Spec.render cr <$> PARAM_ORDER =
  [ "isolcpus=" +:+ cr; "nohz_full=" +:+ cr; "rcu_nocbs=" +:+ cr;
    "housekeeping=cpus:0"; "intel_pstate=disable"; "nosmt";
    "intel_idle.max_cstate=0"; "processor.max_cstate=0"; "mitigations=off";
    "intel_iommu=off"; "iommu=off" ].
Proof.
  change (Spec.render cr) with ((λ t, PyStr.replace t "{CORES}" cr) ∘ Spec.template).
  rewrite list_fmap_compose, template_catalog.
  simpl. rewrite !append_empty_r. reflexivity.
Qed.

(** ** The output of the menu *)

Lemma catalog_total (key : string) :
  key ∈ PARAM_ORDER → is_Some (KERNEL_PARAMS !! key).
Proof.
  revert key. apply Forall_forall.
  repeat constructor; vm_compute; eexists; reflexivity.
Qed.

Lemma init_all_selected (cr key : string) :
  key ∈ PARAM_ORDER → selected (init cr) !! key = Some true.
Proof.
  revert key. apply Forall_forall.
  repeat constructor; vm_compute; reflexivity.
Qed.

Lemma init_total (cr : string) : total_selection (selected (init cr)).
Proof. intros key Hkey. rewrite (init_all_selected cr key Hkey). eauto. Qed.

Lemma dict_get_Some {V} (d : gmap string V) (k : string) (v : V) :
  d !! k = Some v → dict_get d k = Ok v.
Proof. intros H. unfold dict_get. by rewrite H. Qed.

Lemma res_bind_Ok {A B} (a : A) (k : A → res B) : Ok a ≫= k = k a.
Proof. reflexivity. Qed.

(** The loop appends to [params] the rendered templates of the keys it
    visits that are mapped to true, in the order it visits them. *)
Lemma get_selected_params_loop_spec (cr : string) (sel : gmap string bool)
    (keys params : list string) :
  (∀ key, key ∈ keys → is_Some (sel !! key) ∧ is_Some (KERNEL_PARAMS !! key)) →
  get_selected_params_loop cr sel keys params =
  Ok (params ++ (Spec.render cr <$> filter (λ key, sel !! key = Some true) keys)).
Proof.
  revert params. induction keys as [|key keys IH]; intros params Hkeys.
  - simpl. by rewrite app_nil_r.
  - destruct (Hkeys key) as [[b Hb] [p Hp]]; [left |].
    assert (Hrest : ∀ k, k ∈ keys →
              is_Some (sel !! k) ∧ is_Some (KERNEL_PARAMS !! k))
      by (intros k Hk; apply Hkeys; by right).
    cbn [get_selected_params_loop].
    rewrite (dict_get_Some _ _ _ Hb), res_bind_Ok. destruct b.
    + rewrite (dict_get_Some _ _ _ Hp), res_bind_Ok.
      rewrite IH by assumption.
      rewrite filter_cons_True by assumption.
      rewrite fmap_cons, <- app_assoc. cbn [app].
      unfold Spec.render at 2, Spec.template. by rewrite Hp.
    + rewrite IH by assumption.
      rewrite filter_cons_False; [done | by rewrite Hb].
Qed.

Lemma get_selected_params_spec (m : KernelConfigMenu) :
  total_selection (selected m) →
  get_selected_params m = Ok (Spec.selected_params (core_range m) (selected m)).
Proof.
  intros Htot. unfold get_selected_params.
  rewrite get_selected_params_loop_spec.
  - reflexivity.
  - intros key Hkey. split; [by apply Htot | by apply catalog_total].
Qed.

Lemma chosen_all (sel : gmap string bool) :
  (∀ key, key ∈ PARAM_ORDER → sel !! key = Some true) →
  Spec.chosen sel = PARAM_ORDER.
Proof.
  intros Hall. unfold Spec.chosen.
  generalize dependent PARAM_ORDER. intros keys.
  induction keys as [|key keys IH]; intros Hall; [done |].
  rewrite filter_cons_True by (apply Hall; left).
  f_equal. apply IH. intros k Hk. apply Hall. by right.
Qed.

Lemma chosen_none (sel : gmap string bool) :
  (∀ key, key ∈ PARAM_ORDER → sel !! key = Some false) →
  Spec.chosen sel = [].
Proof.
  intros Hnone. unfold Spec.chosen.
  generalize dependent PARAM_ORDER. intros keys.
  induction keys as [|key keys IH]; intros Hnone; [done |].
  rewrite filter_cons_False.
  - apply IH. intros k Hk. apply Hnone. by right.
  - rewrite (Hnone key) by left. discriminate.
Qed.

(** C1. For every selection state that maps each catalog key to a
    boolean, and every core range, [get_selected_params] returns (it
    does not raise) the space-joined concatenation, in [PARAM_ORDER]
    order, of the templates of exactly the keys mapped to true, each
    with the placeholder replaced by the core range; the rendered
    templates are the eleven closed forms listed. Being a function of
    the selection state and the core range, the result is deterministic. *)
Theorem get_selected_params_correct (m : KernelConfigMenu) :
  total_selection (selected m) →
  get_selected_params m =
    Ok (PyStr.join " "
          (Spec.render (core_range m) <$>
             filter (λ key, selected m !! key = Some true) PARAM_ORDER)) ∧
  Spec.render (core_range m) <$> PARAM_ORDER =
    [ "isolcpus=" +:+ core_range m; "nohz_full=" +:+ core_range m;
      "rcu_nocbs=" +:+ core_range m;
      "housekeeping=cpus:0"; "intel_pstate=disable"; "nosmt";
      "intel_idle.max_cstate=0"; "processor.max_cstate=0"; "mitigations=off";
      "intel_iommu=off"; "iommu=off" ].
Proof.
  intros Htot. split.
  - exact (get_selected_params_spec m Htot).
  - apply render_catalog.
Qed.

Lemma get_selected_params_correct_witness :
  get_selected_params (init "0-3") =
    Ok (PyStr.join " "
          (Spec.render "0-3" <$>
             filter (λ key, selected (init "0-3") !! key = Some true) PARAM_ORDER)).
Proof.
  exact (proj1 (get_selected_params_correct (init "0-3") (init_total "0-3"))).
Defined.

(** C5. With core range 1-12 and all eleven entries selected, the result
    is the eleven tokens below, in this order, joined by single spaces. *)
Theorem get_selected_params_full (m : KernelConfigMenu) :
  core_range m = "1-12" →
  (∀ key, key ∈ PARAM_ORDER → selected m !! key = Some true) →
  get_selected_params m =
    Ok (PyStr.join " "
          [ "isolcpus=1-12"; "nohz_full=1-12"; "rcu_nocbs=1-12";
            "housekeeping=cpus:0"; "intel_pstate=disable"; "nosmt";
            "intel_idle.max_cstate=0"; "processor.max_cstate=0";
            "mitigations=off"; "intel_iommu=off"; "iommu=off" ]).
Proof.
  intros Hcr Hall.
  rewrite get_selected_params_spec
    by (intros key Hkey; rewrite (Hall key Hkey); eauto).
  unfold Spec.selected_params.
  rewrite (chosen_all _ Hall), Hcr, render_catalog. reflexivity.
Qed.

Lemma get_selected_params_full_witness :
  get_selected_params (init "1-12") =
    Ok "isolcpus=1-12 nohz_full=1-12 rcu_nocbs=1-12 housekeeping=cpus:0 intel_pstate=disable nosmt intel_idle.max_cstate=0 processor.max_cstate=0 mitigations=off intel_iommu=off iommu=off".
Proof.
  exact (get_selected_params_full (init "1-12") eq_refl (init_all_selected "1-12")).
Defined.

(** After two steps down and a toggle the third entry is left out. *)
Example get_selected_params_toggled :
  get_selected_params toggled_menu =
    Ok "isolcpus=1-12 nohz_full=1-12 housekeeping=cpus:0 intel_pstate=disable nosmt intel_idle.max_cstate=0 processor.max_cstate=0 mitigations=off intel_iommu=off iommu=off".
Proof. vm_compute. reflexivity. Qed.

(** ** Patching the line sequence *)

Lemma patch_first_spec (new : string) (todo seen : list string) :
  Forall Spec.unrelated seen →
  (Spec.replaces_first new (seen ++ todo)
     (fst (patch_first new (length seen) todo (seen ++ todo))) ∧
   snd (patch_first new (length seen) todo (seen ++ todo)) = true) ∨
  (Forall Spec.unrelated (seen ++ todo) ∧
   patch_first new (length seen) todo (seen ++ todo) = (seen ++ todo, false)).
Proof.
  revert seen. induction todo as [|line todo IH]; intros seen Hseen.
  - right. rewrite app_nil_r. by split.
  - cbn [patch_first].
    destruct (PyStr.startswith line GRUB_PREFIX) eqn:Hline.
    + left. split; [| reflexivity].
      exists seen, line, todo. cbn [fst].
      repeat split; [assumption | assumption |].
      replace (length seen) with (length seen + 0)%nat by lia.
      by rewrite insert_app_r.
    + specialize (IH (seen ++ [line])).
      rewrite length_app, <- app_assoc in IH. cbn [length app] in IH.
      replace (length seen + 1)%nat with (S (length seen)) in IH by lia.
      apply IH. apply Forall_app. split; [assumption |].
      by constructor.
Qed.

Lemma update_lines_spec (params : string) (lines : list string) :
  Spec.replaces_first (assignment_line params) lines (update_lines params lines) ∨
  (Forall Spec.unrelated lines ∧
   update_lines params lines = lines ++ [assignment_line params]).
Proof.
  unfold update_lines.
  destruct (patch_first_spec (assignment_line params) lines [] (Forall_nil_2 _))
    as [[Hrep Hflag] | [Hnone Heq]]; cbn [app length] in *.
  - left. destruct (patch_first _ _ _ _) as [out flag].
    cbn [fst snd] in *. by subst flag.
  - right. by rewrite Heq.
Qed.

Lemma clear_lines_spec (lines : list string) :
  Spec.replaces_first (assignment_line EmptyString) lines (clear_lines lines) ∨
  (Forall Spec.unrelated lines ∧ clear_lines lines = lines).
Proof.
  unfold clear_lines.
  destruct (patch_first_spec (assignment_line EmptyString) lines []
              (Forall_nil_2 _))
    as [[Hrep Hflag] | [Hnone Heq]]; cbn [app length] in *.
  - by left.
  - right. by rewrite Heq.
Qed.

(** ** The Writer and the Clearer, step by step *)

Lemma backup_is_not_config : grub_backup ≠ grub_config.
Proof. discriminate. Qed.

(** Every way [update_grub_config] can go, by what the environment does. *)
Lemma update_grub_config_eq (env : Env) (params : string) (w : World) :
  update_grub_config env params w =
  let w1 := logged (EvRun CP_ARGV) w in
  match cp_fault env with
  | Some f => (Ok false, printed (update_error (fmsg f)) w1)
  | None =>
    match files w !! grub_config with
    | None =>
        (Ok false,
         printed (update_error (exn_str (called_process_error CP_ARGV "1"))) w1)
    | Some c =>
      let w2 := logged (EvOpenRead grub_config) (stored grub_backup c w1) in
      match read_fault env with
      | Some f => (Ok false, printed (update_error (fmsg f)) w2)
      | None =>
        let out := writelines (update_lines params (readlines c)) in
        let w3 := logged (EvOpenWrite grub_config) w2 in
        match write_fault env with
        | Some (OpenFails f) => (Ok false, printed (update_error (fmsg f)) w3)
        | Some (WriteFails n f) =>
            (Ok false,
             printed (update_error (fmsg f))
               (stored grub_config (String.substring 0 n out) w3))
        | None =>
          let w4 := logged (EvRun REGEN_ARGV) (stored grub_config out w3) in
          match regen_fault env with
          | Some f => (Ok false, printed (update_error (fmsg f)) w4)
          | None => (Ok true, w4)
          end
        end
      end
    end
  end.
Proof.
  run_M. destruct (cp_fault env) as [f|]; [reflexivity |].
  cbn [logged files].
  destruct (files w !! grub_config) as [c|] eqn:Hc; [| reflexivity].
  run_M. destruct (read_fault env) as [f|]; [reflexivity |].
  cbn [logged stored files].
  rewrite lookup_insert_ne by exact backup_is_not_config. rewrite Hc.
  run_M. destruct (write_fault env) as [[f|n f]|]; [reflexivity | reflexivity |].
  run_M. destruct (regen_fault env) as [f|]; reflexivity.
Qed.

(** Every way [clear_grub_config] can go, by what the environment does. *)
Lemma clear_grub_config_eq (env : Env) (w : World) :
  clear_grub_config env w =
  let w1 := logged (EvOpenRead grub_config) w in
  match read_fault env with
  | Some f => (Ok false, printed (clear_error (fmsg f)) w1)
  | None =>
    match files w !! grub_config with
    | None => (Ok false, printed (clear_error MSG_NO_FILE) w1)
    | Some c =>
      let out := writelines (clear_lines (readlines c)) in
      let w2 := logged (EvOpenWrite grub_config) w1 in
      match write_fault env with
      | Some (OpenFails f) => (Ok false, printed (clear_error (fmsg f)) w2)
      | Some (WriteFails n f) =>
          (Ok false,
           printed (clear_error (fmsg f))
             (stored grub_config (String.substring 0 n out) w2))
      | None =>
        let w3 := logged (EvRun REGEN_ARGV) (stored grub_config out w2) in
        match regen_fault env with
        | Some f => (Ok false, printed (clear_error (fmsg f)) w3)
        | None => (Ok true, w3)
        end
      end
    end
  end.
Proof.
  run_M. destruct (read_fault env) as [f|]; [reflexivity |].
  cbn [logged files].
  destruct (files w !! grub_config) as [c|] eqn:Hc; [| reflexivity].
  run_M. destruct (write_fault env) as [[f|n f]|]; [reflexivity | reflexivity |].
  run_M. destruct (regen_fault env) as [f|]; reflexivity.
Qed.

(** Reading back what was written: the lines of a text, put together
    again, are the text with its line ends normalised. *)
Lemma writelines_splitlines (s : string) :
  writelines (splitlines_keepends s) = s.
Proof.
  unfold writelines. induction s as [|c s IH]; [reflexivity |].
  cbn [splitlines_keepends]. destruct (Ascii.eqb c LF).
  - cbn [String.concat]. destruct (splitlines_keepends s) as [|l ls] eqn:Hs.
    + cbn [String.concat] in IH. by rewrite <- IH.
    + rewrite append_cons. cbn [String.append]. by rewrite IH.
  - destruct (splitlines_keepends s) as [|l ls] eqn:Hs.
    + cbn [String.concat] in *. by rewrite <- IH.
    + cbn [String.concat] in *. destruct ls as [|l' ls].
      * by rewrite IH.
      * rewrite append_cons. by rewrite IH.
Qed.

Lemma writelines_readlines (content : string) :
  writelines (readlines content) = universal_newlines content.
Proof. apply writelines_splitlines. Qed.

Lemma writelines_app (l1 l2 : list string) :
  writelines (l1 ++ l2) = writelines l1 +:+ writelines l2.
Proof.
  unfold writelines. induction l1 as [|x l1 IH]; [reflexivity |].
  cbn [app String.concat]. destruct l1 as [|y l1].
  - cbn [app]. destruct l2 as [|z l2].
    + cbn [String.concat]. by rewrite append_empty_r.
    + reflexivity.
  - cbn [app] in *. rewrite IH. by rewrite append_assoc.
Qed.

(** C2. On the line sequence read from the file, the Writer either
    replaces the first line that starts with the prefix by the prefix
    followed by the double-quoted parameter string (and the line end),
    every other line staying where and as it was, or, when no line
    starts with the prefix, appends exactly that one line after all the
    existing ones. When nothing fails, the configuration file ends up
    holding the patched lines and the backup the old content. *)
Theorem update_grub_config_lines (params : string) :
  assignment_line params =
    GRUB_PREFIX +:+ String DQUOTE params +:+ String DQUOTE (String LF EmptyString) ∧
  (∀ lines : list string,
     (∃ pre l post,
        lines = pre ++ l :: post ∧
        Forall (λ x, PyStr.startswith x GRUB_PREFIX = false) pre ∧
        PyStr.startswith l GRUB_PREFIX = true ∧
        update_lines params lines = pre ++ assignment_line params :: post) ∨
     (Forall (λ x, PyStr.startswith x GRUB_PREFIX = false) lines ∧
      update_lines params lines = lines ++ [assignment_line params])) ∧
  (∀ (env : Env) (w : World) (c : string),
     cp_fault env = None → read_fault env = None →
     write_fault env = None → regen_fault env = None →
     files w !! grub_config = Some c →
     update_grub_config env params w =
       (Ok true,
        {| files := <[grub_config := writelines (update_lines params (readlines c))]>
                      (<[grub_backup := c]> (files w));
           stdout := stdout w;
           trace := trace w ++ [EvRun CP_ARGV; EvOpenRead grub_config;
                                EvOpenWrite grub_config; EvRun REGEN_ARGV] |})).
Proof.
  split; [reflexivity |]. split.
  - intros lines. exact (update_lines_spec params lines).
  - intros env w c Hcp Hrd Hwr Hrg Hc.
    rewrite update_grub_config_eq, Hcp, Hc, Hrd, Hwr, Hrg.
    cbv [logged stored printed files stdout trace]. f_equal. f_equal.
    by rewrite <- !app_assoc.
Qed.

Lemma update_grub_config_lines_witness :
  update_grub_config (quiet_env []) "nosmt" sample_world =
    (Ok true,
     {| files := <[grub_config :=
                     writelines [ nl "GRUB_TIMEOUT=5";
                                  assignment_line "nosmt";
                                  nl "GRUB_CMDLINE_LINUX=" ]]>
                   (<[grub_backup := writelines sample_lines]> (files sample_world));
        stdout := [];
        trace := [EvRun CP_ARGV; EvOpenRead grub_config;
                  EvOpenWrite grub_config; EvRun REGEN_ARGV] |}).
Proof.
  exact (proj2 (proj2 (update_grub_config_lines "nosmt"))
           (quiet_env []) sample_world (writelines sample_lines)
           eq_refl eq_refl eq_refl eq_refl eq_refl).
Defined.

(** A file whose last line has no line end and no assignment line: the
    appended line is written right behind the last one. *)
Example update_lines_unterminated :
  writelines (update_lines "nosmt" (readlines "GRUB_TIMEOUT=5")) =
  "GRUB_TIMEOUT=5" +:+ assignment_line "nosmt".
Proof. vm_compute. reflexivity. Qed.

(** C3, as the claim states it, fails: a file without an assignment line
    is written back as it was, nothing is appended. *)
Lemma clear_grub_config_appends_nothing :
  Forall (λ x, PyStr.startswith x GRUB_PREFIX = false) [nl "GRUB_TIMEOUT=5"] ∧
  clear_lines [nl "GRUB_TIMEOUT=5"] = [nl "GRUB_TIMEOUT=5"] ∧
  clear_lines [nl "GRUB_TIMEOUT=5"] ≠
    [nl "GRUB_TIMEOUT=5"] ++ [assignment_line EmptyString] ∧
  clear_grub_config (quiet_env []) bare_world =
    (Ok true,
     {| files := {[ grub_config := nl "GRUB_TIMEOUT=5" ]};
        stdout := [];
        trace := [EvOpenRead grub_config; EvOpenWrite grub_config;
                  EvRun REGEN_ARGV] |}).
Proof.
  split; [by repeat constructor |].
  split; [reflexivity |].
  split; [discriminate |].
  vm_compute. reflexivity.
Qed.

(** C3, amended. On the line sequence read from the file, the Clearer
    replaces the first line that starts with the prefix, whatever its
    value, by the prefix followed by an empty quoted string, every
    other line staying where and as it was; when no line starts with the
    prefix the sequence is written back unchanged. Whatever the
    environment does, no file other than the configuration file is
    created or changed (so no backup appears), and the Clearer does
    nothing but open the configuration file for reading, open it for
    writing and run the regeneration command, in this order. *)
Theorem clear_grub_config_lines :
  (∀ lines : list string,
     (∃ pre l post,
        lines = pre ++ l :: post ∧
        Forall (λ x, PyStr.startswith x GRUB_PREFIX = false) pre ∧
        PyStr.startswith l GRUB_PREFIX = true ∧
        clear_lines lines = pre ++ assignment_line EmptyString :: post) ∨
     (Forall (λ x, PyStr.startswith x GRUB_PREFIX = false) lines ∧
      clear_lines lines = lines)) ∧
  (∀ (env : Env) (w : World),
     (∀ path, path ≠ grub_config →
        files (snd (clear_grub_config env w)) !! path = files w !! path) ∧
     (∃ t, trace (snd (clear_grub_config env w)) = trace w ++ t ∧
           t `prefix_of` [EvOpenRead grub_config; EvOpenWrite grub_config;
                          EvRun REGEN_ARGV]) ∧
     match read_fault env, write_fault env, regen_fault env,
           files w !! grub_config with
     | None, None, None, Some c =>
         fst (clear_grub_config env w) = Ok true ∧
         files (snd (clear_grub_config env w)) =
           <[grub_config := writelines (clear_lines (readlines c))]> (files w)
     | _, _, _, _ => fst (clear_grub_config env w) = Ok false
     end).
Proof.
  split; [exact clear_lines_spec |].
  intros env w. rewrite clear_grub_config_eq.
  destruct (read_fault env) as [f|], (files w !! grub_config) as [c|],
    (write_fault env) as [[f'|n f']|], (regen_fault env) as [f''|];
    cbv [snd fst logged stored printed files stdout trace];
    (split; [ intros path Hpath; try reflexivity;
              by rewrite lookup_insert_ne
            | split; [ eexists; split;
                       [ rewrite <- ?app_assoc; reflexivity
                       | cbn [app];
                         first [ by exists [EvOpenWrite grub_config; EvRun REGEN_ARGV]
                               | by exists [EvRun REGEN_ARGV]
                               | by exists [] ] ]
                     | try split; reflexivity ] ]).
Qed.

(** C4. The Writer runs the copy to the backup path first, before it
    opens anything. If the copy fails (the command fails, or there is
    no configuration file to copy), the Writer returns false, prints the
    cause, leaves every file as it was and does nothing further: the
    copy is the only event, the regeneration command is not run. If the
    copy succeeds, the backup holds the content the configuration file
    had before, whatever the backup held; so whenever the configuration
    file comes out changed, the backup holds its old content. *)
Theorem update_grub_config_backup (env : Env) (params : string) (w : World) :
  (∃ t, trace (snd (update_grub_config env params w)) =
          trace w ++ EvRun CP_ARGV :: t) ∧
  (is_Some (cp_fault env) ∨ files w !! grub_config = None →
   ∃ cause,
     fst (update_grub_config env params w) = Ok false ∧
     files (snd (update_grub_config env params w)) = files w ∧
     trace (snd (update_grub_config env params w)) = trace w ++ [EvRun CP_ARGV] ∧
     stdout (snd (update_grub_config env params w)) =
       stdout w ++ ["Error updating GRUB configuration: " +:+ cause]) ∧
  (cp_fault env = None →
   ∀ c, files w !! grub_config = Some c →
        files (snd (update_grub_config env params w)) !! grub_backup = Some c) ∧
  (files (snd (update_grub_config env params w)) !! grub_config ≠
     files w !! grub_config →
   files (snd (update_grub_config env params w)) !! grub_backup =
     files w !! grub_config).
Proof.
  rewrite update_grub_config_eq.
  assert (Hbk : ∀ (c x : string) (fs : gmap string string),
            <[grub_config := x]> (<[grub_backup := c]> fs) !! grub_backup = Some c).
  { intros c x fs. rewrite lookup_insert_ne by (symmetry; exact backup_is_not_config).
    apply lookup_insert_eq. }
  destruct (cp_fault env) as [f|] eqn:Hcp.
  { cbv [snd fst logged stored printed files stdout trace].
    split; [by exists [] |]. split; [intros _; by exists (fmsg f) |].
    split; [discriminate |]. intros Hne. by destruct Hne. }
  destruct (files w !! grub_config) as [c|] eqn:Hc.
  2: { cbv [snd fst logged stored printed files stdout trace].
       split; [by exists [] |]. split; [intros _; by eexists |].
       split; [discriminate |]. intros Hne. by destruct Hne. }
  destruct (read_fault env) as [f|], (write_fault env) as [[f'|n f']|],
    (regen_fault env) as [f''|];
    cbv [snd fst logged stored printed files stdout trace];
    (split; [ eexists; rewrite <- ?app_assoc; reflexivity |]);
    (split; [ intros [[? ?]|?]; discriminate |]);
    (split; [ intros _ c' Hc'; rewrite <- Hc'; rewrite ?Hbk; try done;
              apply lookup_insert_eq |]);
    intros _; rewrite ?Hbk; try done; by rewrite lookup_insert_eq.
Qed.

Lemma update_grub_config_backup_witness :
  ∃ cause,
    fst (update_grub_config cp_fails_env "nosmt" sample_world) = Ok false ∧
    files (snd (update_grub_config cp_fails_env "nosmt" sample_world)) =
      files sample_world ∧
    trace (snd (update_grub_config cp_fails_env "nosmt" sample_world)) =
      trace sample_world ++ [EvRun CP_ARGV] ∧
    stdout (snd (update_grub_config cp_fails_env "nosmt" sample_world)) =
      stdout sample_world ++ ["Error updating GRUB configuration: " +:+ cause].
Proof.
  apply (update_grub_config_backup cp_fails_env "nosmt" sample_world).
  left. vm_compute. eexists. reflexivity.
Defined.

(** ** The menu loop *)

Lemma init_ok (cr : string) : menu_ok (init cr).
Proof. split; [by vm_compute | apply init_total]. Qed.

Lemma list_get_focused (cur : Z) :
  0 ≤ cur < N_PARAMS →
  ∃ key, list_get PARAM_ORDER cur = Ok key ∧
         PARAM_ORDER !! Z.to_nat cur = Some key ∧
         key ∈ PARAM_ORDER.
Proof.
  intros Hcur. unfold list_get. fold N_PARAMS.
  destruct (Z.leb_spec 0 cur); [| lia].
  destruct (Z.leb_spec 0 cur); [| lia].
  destruct (Z.ltb_spec cur N_PARAMS); [| lia]. cbn [andb].
  destruct (PARAM_ORDER !! Z.to_nat cur) as [key|] eqn:Hkey.
  - exists key. repeat split. by eapply list_elem_of_lookup_2.
  - apply lookup_ge_None in Hkey. unfold N_PARAMS in *. lia.
Qed.

Lemma apply_row_unfocused : PARAM_ORDER !! Z.to_nat N_PARAMS = None.
Proof. reflexivity. Qed.

(** The toggle, on a parameter row. *)
Lemma handle_key_toggle (height : Z) (m : KernelConfigMenu) (key : string)
    (old : bool) :
  0 ≤ current m < N_PARAMS →
  PARAM_ORDER !! Z.to_nat (current m) = Some key →
  selected m !! key = Some old →
  handle_key height ord_space m =
    Ok (Continue {| core_range := core_range m;
                    selected := <[key := negb old]> (selected m);
                    current := current m; offset := offset m |}).
Proof.
  intros Hcur Hkey Hold. unfold handle_key.
  change (ord_space =? KEY_UP) with false.
  change (ord_space =? KEY_DOWN) with false.
  change (ord_space =? ord_space) with true. cbv iota.
  destruct (Z.ltb_spec (current m) N_PARAMS); [| lia]. cbn [andb].
  destruct (list_get_focused (current m) Hcur) as (key' & -> & Hkey' & _).
  assert (key' = key) as -> by congruence.
  by rewrite res_bind_Ok, (dict_get_Some _ _ _ Hold), res_bind_Ok.
Qed.

(** One handled key, from a menu that satisfies the invariant. *)
Lemma handle_key_spec (height key : Z) (m : KernelConfigMenu) :
  menu_ok m →
  match handle_key height key m with
  | Ok (Continue m') =>
      menu_ok m' ∧ core_range m' = core_range m ∧
      (key = KEY_UP →
       current m' = Z.max 0 (current m - 1) ∧ selected m' = selected m) ∧
      (key = KEY_DOWN →
       current m' = Z.min N_PARAMS (current m + 1) ∧ selected m' = selected m) ∧
      (key = ord_space →
       current m' = current m ∧
       match PARAM_ORDER !! Z.to_nat (current m) with
       | Some focused =>
           (∃ old, selected m !! focused = Some old ∧
                   selected m' !! focused = Some (negb old)) ∧
           (∀ other, other ≠ focused →
                     selected m' !! other = selected m !! other)
       | None => selected m' = selected m
       end ∧
       handle_key height key m' = Ok (Continue m)) ∧
      (key ≠ KEY_UP → key ≠ KEY_DOWN → key ≠ ord_space → m' = m)
  | Ok (Return b) =>
      (b = true ∧ (key = ord_newline ∨ key = KEY_ENTER) ∧ current m = N_PARAMS) ∨
      (b = false ∧ (key = ord_q ∨ key = ord_Q))
  | Raise _ | Blocked => False
  end.
Proof.
  intros [Hcur Htot].
  destruct (Z.eq_dec key ord_space) as [-> | Hspace].
  { destruct (Z.eq_dec (current m) N_PARAMS) as [Hlast | Hrow].
    - unfold handle_key. rewrite Hlast.
      change (ord_space =? KEY_UP) with false.
      change (ord_space =? KEY_DOWN) with false.
      change (N_PARAMS <? N_PARAMS) with false.
      rewrite andb_false_r. cbn.
      rewrite <- Hlast.
      repeat split; try done; try lia.
      + by rewrite Hlast, apply_row_unfocused.
      + by rewrite Z.ltb_irrefl.
    - assert (Hin : 0 ≤ current m < N_PARAMS) by lia.
      destruct (list_get_focused _ Hin) as (focused & _ & Hfoc & Helem).
      destruct (Htot focused Helem) as [old Hold].
      rewrite (handle_key_toggle height m focused old Hin Hfoc Hold).
      split; [| split; [reflexivity |]].
      { split; [done |]. intros k Hk. cbn [selected].
        destruct (decide (focused = k)) as [<- | Hne].
        - rewrite lookup_insert_eq. eauto.
        - rewrite lookup_insert_ne by done. by apply Htot. }
      split; [discriminate |]. split; [discriminate |].
      split; [| done]. intros _. split; [reflexivity |].
      cbn [selected current]. rewrite Hfoc. split.
      { split.
        - exists old. split; [done |]. apply lookup_insert_eq.
        - intros other Hother. by apply lookup_insert_ne. }
      rewrite (handle_key_toggle height _ focused (negb old)); cbn;
        [| lia | done | apply lookup_insert_eq].
      rewrite insert_insert_eq, negb_involutive, insert_id by done.
      by destruct m. }
  unfold handle_key.
  destruct (Z.eqb_spec key KEY_UP) as [-> | Hup].
  { repeat split; cbn [current selected core_range]; try done; try lia. }
  destruct (Z.eqb_spec key KEY_DOWN) as [-> | Hdown].
  { repeat split; cbn [current selected core_range]; try done; try lia. }
  destruct (Z.eqb_spec key ord_space) as [? | _]; [done |]. cbn [andb].
  destruct (Z.eqb_spec key ord_newline) as [-> | Hnl].
  { cbn [orb]. destruct (Z.eqb_spec (current m) N_PARAMS).
    - left. repeat split; auto.
    - same_menu. }
  destruct (Z.eqb_spec key KEY_ENTER) as [-> | Henter].
  { cbn [orb]. destruct (Z.eqb_spec (current m) N_PARAMS).
    - left. repeat split; auto.
    - same_menu. }
  cbn [orb].
  destruct (Z.eqb_spec key ord_q) as [-> | Hq]; [right; auto |].
  destruct (Z.eqb_spec key ord_Q) as [-> | HQ]; [right; auto |].
  cbn [orb]. same_menu.
Qed.

Lemma reachable_ok (cr : string) (m : KernelConfigMenu) :
  reachable cr m → menu_ok m ∧ core_range m = cr.
Proof.
  induction 1 as [| m m' height key _ [IHok IHcr] Hstep].
  - split; [apply init_ok | reflexivity].
  - pose proof (handle_key_spec height key m IHok) as Hspec.
    rewrite Hstep in Hspec. destruct Hspec as (Hok & Hcr & _).
    split; [assumption | congruence].
Qed.

(** C10. The focus index starts at 0. In every menu the loop can reach,
    it lies in [0, N]; whatever key comes next, the loop does not raise,
    and if it goes round again the index still lies in [0, N]. Up and
    down move it one step, clamped at 0 and at N, and leave the
    selection alone. The toggle leaves the index alone; on a parameter
    row it flips the boolean of the focused parameter and of no other,
    on the Apply row it changes nothing; a second toggle right after the
    first restores the menu. Any other key that does not end the loop
    leaves the menu as it was. *)
Theorem focus_index_invariant (cr : string) (m : KernelConfigMenu) :
  reachable cr m →
  current (init cr) = 0 ∧
  0 ≤ current m ≤ N_PARAMS ∧
  ∀ height key : Z,
    match handle_key height key m with
    | Ok (Continue m') =>
        0 ≤ current m' ≤ N_PARAMS ∧
        (key = KEY_UP →
         current m' = Z.max 0 (current m - 1) ∧ selected m' = selected m) ∧
        (key = KEY_DOWN →
         current m' = Z.min N_PARAMS (current m + 1) ∧ selected m' = selected m) ∧
        (key = ord_space →
         current m' = current m ∧
         match PARAM_ORDER !! Z.to_nat (current m) with
         | Some focused =>
             (∃ old, selected m !! focused = Some old ∧
                     selected m' !! focused = Some (negb old)) ∧
             (∀ other, other ≠ focused →
                       selected m' !! other = selected m !! other)
         | None => selected m' = selected m
         end ∧
         handle_key height key m' = Ok (Continue m)) ∧
        (key ≠ KEY_UP → key ≠ KEY_DOWN → key ≠ ord_space → m' = m)
    | Ok (Return b) =>
        (b = true ∧ (key = ord_newline ∨ key = KEY_ENTER) ∧
         current m = N_PARAMS) ∨
        (b = false ∧ (key = ord_q ∨ key = ord_Q))
    | Raise _ | Blocked => False
    end.
Proof.
  intros Hreach. destruct (reachable_ok cr m Hreach) as [Hok _].
  split; [reflexivity |]. split; [apply Hok |].
  intros height key. pose proof (handle_key_spec height key m Hok) as Hspec.
  destruct (handle_key height key m) as [[m' | b] | e |]; try assumption.
  destruct Hspec as ([Hcur _] & _ & Hrest). by split.
Qed.

Lemma toggled_menu_reachable : reachable "1-12" toggled_menu.
Proof.
  eapply (reach_step _ _ _ 24 ord_space);
    [eapply (reach_step _ _ _ 24 KEY_DOWN);
      [eapply (reach_step _ _ _ 24 KEY_DOWN); [apply reach_init |] |] |];
    reflexivity.
Qed.

Lemma focus_index_invariant_witness :
  0 ≤ current toggled_menu ≤ N_PARAMS.
Proof.
  exact (proj1 (proj2 (focus_index_invariant "1-12" toggled_menu
                         toggled_menu_reachable))).
Defined.

Lemma only_keys_read_refl (w : World) : only_keys_read w w.
Proof. repeat split. exists 0%nat. by rewrite app_nil_r. Qed.

Lemma only_keys_read_step (w w' : World) :
  only_keys_read (logged EvGetch w) w' → only_keys_read w w'.
Proof.
  intros (Hf & Ho & n & Ht). repeat split; [done | done |].
  exists (S n). rewrite Ht. cbn [logged trace replicate].
  by rewrite <- app_assoc.
Qed.

Lemma handle_input_spec (cr : string) (evs : list tty_event)
    (m : KernelConfigMenu) (w : World) :
  reachable cr m →
  match handle_input evs m w with
  | (Ok (b, m'), w') => reachable cr m' ∧ only_keys_read w w'
  | (Raise e, w') =>
      (e = KeyboardInterrupt ∨ ∃ msg, e = CursesError msg) ∧ only_keys_read w w'
  | (Blocked, w') => only_keys_read w w'
  end.
Proof.
  revert m w. induction evs as [| ev evs IH]; intros m w Hreach.
  - apply only_keys_read_refl.
  - destruct ev as [key height | | msg]; cbn [handle_input].
    + run_M. destruct (reachable_ok cr m Hreach) as [Hok _].
      pose proof (handle_key_spec height key m Hok) as Hspec.
      destruct (handle_key height key m) as [[m' | b] | e |] eqn:Hstep;
        try contradiction.
      * specialize (IH m' (logged EvGetch w) (reach_step cr m m' _ _ Hreach Hstep)).
        destruct (handle_input evs m' (logged EvGetch w)) as [[[b m''] | e |] w'].
        -- destruct IH as [? ?]. split; [done | by apply only_keys_read_step].
        -- destruct IH as [? ?]. split; [done | by apply only_keys_read_step].
        -- by apply only_keys_read_step.
      * split; [done |]. apply only_keys_read_step, only_keys_read_refl.
    + run_M. split; [by left |].
      apply only_keys_read_step, only_keys_read_refl.
    + run_M. split; [right; by exists msg |]. apply only_keys_read_refl.
Qed.

(** ** The entry point, path by path *)

Lemma argv_short (argv : list string) :
  (length argv < 2)%nat → (Z.of_nat (length argv) <? 2) = true.
Proof. intros H. apply Z.ltb_lt. lia. Qed.

Lemma argv_long (prog action : string) (rest : list string) :
  (Z.of_nat (length (prog :: action :: rest)) <? 2) = false.
Proof. apply Z.ltb_ge. cbn [length]. lia. Qed.

Lemma argv_action (prog action : string) (rest : list string) :
  list_get (prog :: action :: rest) 1 = Ok action.
Proof.
  unfold list_get. cbn [length].
  change (0 <=? 1) with true. cbv iota.
  destruct (Z.ltb_spec 1 (Z.of_nat (S (S (length rest))))); [| lia].
  reflexivity.
Qed.

Lemma argv_core_range (prog action : string) (rest : list string) :
  (if Z.of_nat (length (prog :: action :: rest)) >? 2
   then lift (list_get (prog :: action :: rest) 2)
   else mret "1-12") = (mret (core_range_arg rest) : M string).
Proof.
  destruct rest as [| cr rest]; [reflexivity |].
  destruct (Z.gtb_spec (Z.of_nat (length (prog :: action :: cr :: rest))) 2) as [_ | Hle];
    [| cbn [length] in Hle; lia].
  unfold list_get. cbn [length].
  change (0 <=? 2) with true. cbv iota.
  destruct (Z.ltb_spec 2 (Z.of_nat (S (S (S (length rest)))))); [| lia].
  reflexivity.
Qed.

Lemma run_main_usage (env : Env) (argv : list string) (w : World) :
  (length argv < 2)%nat →
  run_main env argv w = (Exited 1, printed MSG_USAGE w).
Proof.
  intros Hlen. unfold run_main, main. rewrite (argv_short argv Hlen).
  reflexivity.
Qed.

Lemma run_main_not_root (env : Env) (prog action : string)
    (rest : list string) (w : World) :
  euid env ≠ 0 →
  run_main env (prog :: action :: rest) w =
    (Exited 1, printed MSG_ROOT (logged EvGeteuid w)).
Proof.
  intros Heuid. unfold run_main, main. rewrite argv_long. run_top.
  destruct (Z.eqb_spec (euid env) 0); [done | reflexivity].
Qed.

Lemma run_main_enable (env : Env) (prog : string) (rest : list string)
    (w : World) :
  euid env = 0 →
  run_main env (prog :: "enable" :: rest) w =
  match curses_wrapper env (init (core_range_arg rest)) (logged EvGeteuid w) with
  | (Ok (true, menu), w2) =>
      match get_selected_params menu with
      | Ok selected_params =>
          if PyStr.truthy selected_params then
            match update_grub_config env selected_params
                    (printed (MSG_APPLYING selected_params) w2) with
            | (Ok true, w3) => (Exited 0, printed MSG_INSTALLED w3)
            | (Ok false, w3) => (Exited 1, printed MSG_UPDATE_FAILED w3)
            | (Raise e, w3) => after_raise e w3
            | (Blocked, w3) => (Waiting, w3)
            end
          else (Exited 0, printed MSG_NONE_SELECTED w2)
      | Raise e => after_raise e w2
      | Blocked => (Waiting, w2)
      end
  | (Ok (false, _), w2) => (Exited 0, printed MSG_CANCELLED w2)
  | (Raise e, w2) => after_raise e w2
  | (Blocked, w2) => (Waiting, w2)
  end.
Proof.
  intros Heuid. unfold run_main, main. rewrite argv_long. run_top.
  rewrite Heuid. change (negb (0 =? 0)) with false. run_top.
  rewrite argv_action. run_top. rewrite argv_core_range. run_top.
  change (String.eqb "enable" "enable") with true. run_top.
  destruct (handle_input _ _ _) as [[[[|] menu] | e |] w2]; run_top.
  - destruct (get_selected_params menu) as [sp | e |]; run_top.
    + destruct (PyStr.truthy sp); run_top; [| reflexivity].
      destruct (update_grub_config _ _ _) as [[[|] | e |] w3]; run_top;
        try reflexivity.
      by destruct e.
    + by destruct e.
    + reflexivity.
  - reflexivity.
  - by destruct e.
  - reflexivity.
Qed.

Lemma run_main_disable (env : Env) (prog : string) (rest : list string)
    (w : World) :
  euid env = 0 →
  run_main env (prog :: "disable" :: rest) w =
  match clear_grub_config env (logged EvGeteuid w) with
  | (Ok true, w2) => (Exited 0, printed MSG_CLEARED w2)
  | (Ok false, w2) => (Exited 1, printed MSG_CLEAR_FAILED w2)
  | (Raise e, w2) => (process_exit (Raise e), w2)
  | (Blocked, w2) => (Waiting, w2)
  end.
Proof.
  intros Heuid. unfold run_main, main. rewrite argv_long. run_top.
  rewrite Heuid. change (negb (0 =? 0)) with false. run_top.
  rewrite argv_action. run_top. rewrite argv_core_range. run_top.
  change (String.eqb "disable" "enable") with false.
  change (String.eqb "disable" "disable") with true. run_top.
  destruct (clear_grub_config _ _) as [[[|] | e |] w2]; run_top; try reflexivity.
Qed.

Lemma run_main_invalid (env : Env) (prog action : string)
    (rest : list string) (w : World) :
  euid env = 0 → action ≠ "enable" → action ≠ "disable" →
  run_main env (prog :: action :: rest) w =
    (Exited 1, printed (MSG_INVALID action) (logged EvGeteuid w)).
Proof.
  intros Heuid Hen Hdis. unfold run_main, main. rewrite argv_long. run_top.
  rewrite Heuid. change (negb (0 =? 0)) with false. run_top.
  rewrite argv_action. run_top. rewrite argv_core_range. run_top.
  destruct (String.eqb_spec action "enable"); [done |].
  destruct (String.eqb_spec action "disable"); [done |].
  reflexivity.
Qed.

(** ** What a run prints and does *)

Lemma extends_printed (w w' : World) (out : list string) (t : list event)
    (s : string) :
  extends w w' out t → extends w (printed s w') (out ++ [s]) t.
Proof.
  intros [Ho Ht]. split; cbn [printed stdout trace]; [| done].
  by rewrite Ho, app_assoc.
Qed.

Lemma extends_logged (w : World) (ev : event) : extends w (logged ev w) [] [ev].
Proof. split; cbn [logged stdout trace]; [by rewrite app_nil_r | done]. Qed.

Lemma extends_trans (w1 w2 w3 : World) (out1 out2 : list string)
    (t1 t2 : list event) :
  extends w1 w2 out1 t1 → extends w2 w3 out2 t2 →
  extends w1 w3 (out1 ++ out2) (t1 ++ t2).
Proof.
  intros [Ho1 Ht1] [Ho2 Ht2]. split.
  - by rewrite Ho2, Ho1, app_assoc.
  - by rewrite Ht2, Ht1, app_assoc.
Qed.

(** The Writer returns, with a boolean; it prints one line, naming the
    cause, exactly when the boolean is false. *)
Lemma update_grub_config_returns (env : Env) (params : string) (w : World) :
  ∃ (b : bool) (w' : World) (cause : string) (t : list event),
    update_grub_config env params w = (Ok b, w') ∧
    extends w w' (if b then [] else [update_error cause]) t ∧
    no_euid t.
Proof.
  rewrite update_grub_config_eq.
  destruct (cp_fault env) as [f0|], (files w !! grub_config) as [c|],
    (read_fault env) as [f|], (write_fault env) as [[f'|n f']|],
    (regen_fault env) as [f''|];
    cbv zeta; eexists _, _, _, _;
    (split; [reflexivity |]);
    (split; [split; cbv [logged stored printed files stdout trace];
             [ first [reflexivity | symmetry; apply app_nil_r]
             | rewrite <- ?app_assoc; reflexivity ] |]);
    by repeat constructor.
  Unshelve. all: exact EmptyString.
Qed.

Lemma clear_grub_config_returns (env : Env) (w : World) :
  ∃ (b : bool) (w' : World) (cause : string) (t : list event),
    clear_grub_config env w = (Ok b, w') ∧
    extends w w' (if b then [] else [clear_error cause]) t ∧
    no_euid t.
Proof.
  rewrite clear_grub_config_eq.
  destruct (files w !! grub_config) as [c|],
    (read_fault env) as [f|], (write_fault env) as [[f'|n f']|],
    (regen_fault env) as [f''|];
    cbv zeta; eexists _, _, _, _;
    (split; [reflexivity |]);
    (split; [split; cbv [logged stored printed files stdout trace];
             [ first [reflexivity | symmetry; apply app_nil_r]
             | rewrite <- ?app_assoc; reflexivity ] |]);
    by repeat constructor.
  Unshelve. all: exact EmptyString.
Qed.

Lemma curses_wrapper_eq (env : Env) (m : KernelConfigMenu) (w : World) :
  curses_wrapper env m w = handle_input (tty env) m (logged EvCurses w).
Proof. reflexivity. Qed.

Lemma menu_world (w w2 : World) :
  only_keys_read (logged EvCurses (logged EvGeteuid w)) w2 →
  files w2 = files w ∧
  ∃ n : nat, extends w w2 [] (EvGeteuid :: EvCurses :: replicate n EvGetch).
Proof.
  intros (Hf & Ho & n & Ht). split; [done |]. exists n. split.
  - by rewrite Ho, app_nil_r.
  - rewrite Ht. cbn [logged trace]. by rewrite <- !app_assoc.
Qed.

(** Every run, whatever the command line and the environment: what it
    prints goes with the way it ends, and the privilege query is made
    once, first, unless the action is missing. *)
Lemma run_main_spec (env : Env) (argv : list string) (w : World) :
  ∃ (out : list string) (t : list event),
    extends w (snd (run_main env argv w)) out t ∧
    (if Z.of_nat (length argv) <? 2 then t = []
     else ∃ t', t = EvGeteuid :: t' ∧ no_euid t') ∧
    match fst (run_main env argv w) with
    | Exited code => status code out
    | Crashed e => (∃ msg, e = CursesError msg) ∧ out = []
    | Waiting => out = []
    end.
Proof.
  destruct argv as [| prog [| action rest]].
  1, 2: rewrite run_main_usage by (cbn [length]; lia);
        exists [MSG_USAGE], []; split;
        [ split; cbn [printed snd stdout trace]; by rewrite ?app_nil_r
        | split; [reflexivity | constructor] ].
  rewrite argv_long.
  destruct (decide (euid env = 0)) as [Heuid | Heuid].
  2: { rewrite run_main_not_root by done. cbn [fst snd].
       finish_run (extends_printed _ _ _ _ MSG_ROOT (extends_logged w EvGeteuid)). }
  destruct (decide (action = "enable")) as [-> | Hen].
  { rewrite run_main_enable, curses_wrapper_eq by done.
    pose proof (handle_input_spec _ (tty env) _
                  (logged EvCurses (logged EvGeteuid w))
                  (reach_init (core_range_arg rest))) as Hmenu.
    destruct (handle_input _ _ _) as [[[b menu] | e |] w2].
    - destruct Hmenu as [Hreach Hkeys].
      apply menu_world in Hkeys as (_ & n & Hext).
      destruct b.
      + destruct (reachable_ok _ _ Hreach) as [[_ Htot] _].
        rewrite (get_selected_params_spec menu Htot).
        destruct (PyStr.truthy _).
        * destruct (update_grub_config_returns env
                      (Spec.selected_params (core_range menu) (selected menu))
                      (printed (MSG_APPLYING
                         (Spec.selected_params (core_range menu) (selected menu))) w2))
            as (b & w3 & cause & t & Heq & Hext3 & Hno).
          rewrite Heq. destruct b; cbn [fst snd].
          -- finish_run (extends_printed _ _ _ _ MSG_INSTALLED
                           (extends_trans _ _ _ _ _ _ _
                              (extends_printed _ _ _ _ _ Hext) Hext3)).
          -- finish_run (extends_printed _ _ _ _ MSG_UPDATE_FAILED
                           (extends_trans _ _ _ _ _ _ _
                              (extends_printed _ _ _ _ _ Hext) Hext3)).
        * cbn [fst snd].
          finish_run (extends_printed _ _ _ _ MSG_NONE_SELECTED Hext).
      + cbn [fst snd]. finish_run (extends_printed _ _ _ _ MSG_CANCELLED Hext).
    - destruct Hmenu as [[-> | [msg ->]] Hkeys];
        apply menu_world in Hkeys as (_ & n & Hext); cbn [after_raise fst snd].
      + finish_run (extends_printed _ _ _ _ (String LF MSG_CANCELLED) Hext).
      + finish_run Hext.
    - apply menu_world in Hmenu as (_ & n & Hext). cbn [fst snd].
      finish_run Hext. }
  destruct (decide (action = "disable")) as [-> | Hdis].
  { rewrite run_main_disable by done.
    destruct (clear_grub_config_returns env (logged EvGeteuid w))
      as (b & w2 & cause & t & Heq & Hext2 & Hno).
    rewrite Heq. destruct b; cbn [fst snd].
    - finish_run (extends_printed _ _ _ _ MSG_CLEARED
                    (extends_trans _ _ _ _ _ _ _ (extends_logged w EvGeteuid) Hext2)).
    - finish_run (extends_printed _ _ _ _ MSG_CLEAR_FAILED
                    (extends_trans _ _ _ _ _ _ _ (extends_logged w EvGeteuid) Hext2)). }
  rewrite run_main_invalid by done. cbn [fst snd].
  finish_run (extends_printed _ _ _ _ (MSG_INVALID action) (extends_logged w EvGeteuid)).
Qed.

(** ** The entry point and its outcomes *)

Lemma deselected_menu_none (key : string) :
  key ∈ PARAM_ORDER → selected deselected_menu !! key = Some false.
Proof.
  revert key. apply Forall_forall.
  repeat constructor; vm_compute; reflexivity.
Qed.

(** C6. When the menu is confirmed with every entry deselected,
    [get_selected_params] returns the empty string and the run ends with
    status 0 after printing the one line that no parameters are
    selected; no file has changed, and between the privilege check and
    the end the process has only started the terminal session and read
    keys: the Writer is not entered. *)
Theorem enable_nothing_selected (env : Env) (prog : string)
    (rest : list string) (w w2 : World) (menu : KernelConfigMenu) :
  euid env = 0 →
  curses_wrapper env (init (core_range_arg rest)) (logged EvGeteuid w) =
    (Ok (true, menu), w2) →
  (∀ key, key ∈ PARAM_ORDER → selected menu !! key = Some false) →
  get_selected_params menu = Ok EmptyString ∧
  run_main env (prog :: "enable" :: rest) w =
    (Exited 0,
     {| files := files w;
        stdout := stdout w ++ [MSG_NONE_SELECTED];
        trace := trace w2 |}) ∧
  ∃ n : nat, trace w2 = trace w ++ EvGeteuid :: EvCurses :: replicate n EvGetch.
Proof.
  intros Heuid Hwrap Hnone.
  assert (Hget : get_selected_params menu = Ok EmptyString).
  { rewrite get_selected_params_spec
      by (intros key Hkey; rewrite (Hnone key Hkey); eauto).
    unfold Spec.selected_params. by rewrite (chosen_none _ Hnone). }
  pose proof (handle_input_spec _ (tty env) _
                (logged EvCurses (logged EvGeteuid w))
                (reach_init (core_range_arg rest))) as Hmenu.
  rewrite <- curses_wrapper_eq, Hwrap in Hmenu. destruct Hmenu as [_ Hkeys].
  pose proof Hkeys as (_ & Hout & _).
  apply menu_world in Hkeys as (Hfiles & n & _ & Htrace).
  split; [exact Hget |]. split; [| by exists n].
  rewrite run_main_enable, Hwrap, Hget by done.
  cbn [PyStr.truthy]. unfold printed. rewrite Hfiles, Hout. reflexivity.
Qed.

Lemma enable_nothing_selected_witness :
  run_main (quiet_env deselect_all_keys) ["kernel-config"; "enable"] sample_world =
    (Exited 0,
     {| files := files sample_world;
        stdout := [MSG_NONE_SELECTED];
        trace := EvGeteuid :: EvCurses :: replicate 23 EvGetch |}).
Proof.
  refine (proj1 (proj2 (enable_nothing_selected (quiet_env deselect_all_keys)
            "kernel-config" [] sample_world deselected_world deselected_menu
            eq_refl _ deselected_menu_none))).
  vm_compute. reflexivity.
Defined.

(** C7. A command line without an action ends with status 1 after the
    usage line, and nothing else happens: no privilege query, no file
    touched. With an action, the privilege query is the first thing the
    process does and it is made once; if the effective uid is not 0,
    the run, whatever the action, ends with status 1 after the one
    error line, and the query is all that has happened: no menu, no
    file access, no child process. *)
Theorem privilege_gate (env : Env) (argv : list string) (w : World) :
  if Z.of_nat (length argv) <? 2
  then run_main env argv w =
         (Exited 1,
          {| files := files w; stdout := stdout w ++ [MSG_USAGE];
             trace := trace w |})
  else
    (∃ t, trace (snd (run_main env argv w)) = trace w ++ EvGeteuid :: t ∧
          Forall (λ ev, ev ≠ EvGeteuid) t) ∧
    (euid env ≠ 0 →
     run_main env argv w =
       (Exited 1,
        {| files := files w; stdout := stdout w ++ [MSG_ROOT];
           trace := trace w ++ [EvGeteuid] |})).
Proof.
  destruct (run_main_spec env argv w) as (out & t & [_ Htrace] & Hgate & _).
  destruct argv as [| prog [| action rest]].
  1, 2: by rewrite run_main_usage by (cbn [length]; lia).
  rewrite argv_long in *. destruct Hgate as (t' & -> & Hno).
  split; [by exists t' |].
  intros Heuid. by rewrite run_main_not_root.
Qed.

Lemma privilege_gate_witness :
  run_main user_env ["kernel-config"; "disable"] sample_world =
    (Exited 1,
     {| files := files sample_world; stdout := [MSG_ROOT];
        trace := [EvGeteuid] |}).
Proof.
  refine (proj2 (privilege_gate user_env ["kernel-config"; "disable"]
                   sample_world) _).
  discriminate.
Defined.





(** * Further properties *)

(** ** The parameter string and the selection *)

Lemma render_nonempty (cr key : string) :
  key ∈ PARAM_ORDER → Spec.render cr key ≠ EmptyString.
Proof.
  intros Hkey.
  assert (Hall : Forall (λ s, s ≠ EmptyString) (Spec.render cr <$> PARAM_ORDER)).
  { rewrite render_catalog. repeat constructor; discriminate. }
  rewrite Forall_forall in Hall. apply Hall.
  apply list_elem_of_fmap. by exists key.
Qed.

Lemma join_nonempty (sep x : string) (xs : list string) :
  x ≠ EmptyString → PyStr.join sep (x :: xs) ≠ EmptyString.
Proof.
  intros Hx. destruct x as [| c x]; [done |].
  unfold PyStr.join. cbn [String.concat]. destruct xs; discriminate.
Qed.

Lemma chosen_subset (sel : gmap string bool) (key : string) :
  key ∈ Spec.chosen sel ↔ key ∈ PARAM_ORDER ∧ sel !! key = Some true.
Proof. unfold Spec.chosen. rewrite list_elem_of_filter. tauto. Qed.

Lemma selected_params_truthy (cr : string) (sel : gmap string bool) :
  PyStr.truthy (Spec.selected_params cr sel) = true ↔ some_selected sel.
Proof.
  unfold Spec.selected_params, some_selected.
  destruct (Spec.chosen sel) as [| key keys] eqn:Hchosen.
  - split; [discriminate |]. intros (key & Hkey & Hsel).
    assert (key ∈ Spec.chosen sel) as Hin by (by apply chosen_subset).
    rewrite Hchosen in Hin. by apply elem_of_nil in Hin.
  - assert (key ∈ Spec.chosen sel) as Hin by (rewrite Hchosen; left).
    apply chosen_subset in Hin as [Hkey Hsel]. split.
    + intros _. by exists key.
    + intros _. rewrite fmap_cons.
      pose proof (join_nonempty " " _ (Spec.render cr <$> keys)
                    (render_nonempty cr key Hkey)) as Hne.
      by destruct (PyStr.join _ _).
Qed.

(** X1. For a selection state with an entry for every catalog key, the
    parameter string is empty exactly when no entry is selected,
    whatever the core range is (an empty core range included). *)
Theorem get_selected_params_empty_iff (m : KernelConfigMenu) :
  total_selection (selected m) →
  (get_selected_params m = Ok EmptyString ↔
   ∀ key, key ∈ PARAM_ORDER → selected m !! key = Some false).
Proof.
  intros Htot. rewrite (get_selected_params_spec m Htot).
  pose proof (selected_params_truthy (core_range m) (selected m)) as Htruthy.
  split.
  - intros [= Hempty] key Hkey. rewrite Hempty in Htruthy.
    destruct (Htot key Hkey) as [[|] Hb]; [| done].
    assert (some_selected (selected m)) as Hsome by (by exists key).
    apply Htruthy in Hsome. discriminate.
  - intros Hnone. unfold Spec.selected_params.
    by rewrite (chosen_none _ Hnone).
Qed.

Lemma get_selected_params_empty_iff_witness :
  get_selected_params deselected_menu = Ok EmptyString ↔
  ∀ key, key ∈ PARAM_ORDER → selected deselected_menu !! key = Some false.
Proof.
  apply (get_selected_params_empty_iff deselected_menu).
  intros key Hkey. rewrite (deselected_menu_none key Hkey). eauto.
Defined.

(** ** Patching twice *)

Lemma assignment_line_starts (params : string) :
  PyStr.startswith (assignment_line params) GRUB_PREFIX = true.
Proof. reflexivity. Qed.

Lemma patch_first_none (new : string) (i : nat) (todo lines : list string) :
  Forall Spec.unrelated todo →
  patch_first new i todo lines = (lines, false).
Proof.
  revert i. induction todo as [| line todo IH]; intros i Hall; [done |].
  apply Forall_cons in Hall as [Hline Hall].
  cbn [patch_first]. unfold Spec.unrelated in Hline. rewrite Hline. by apply IH.
Qed.

Lemma patch_first_found (new l : string) (seen pre post : list string) :
  Forall Spec.unrelated pre →
  PyStr.startswith l GRUB_PREFIX = true →
  patch_first new (length seen) (pre ++ l :: post) (seen ++ pre ++ l :: post) =
    (seen ++ pre ++ new :: post, true).
Proof.
  revert seen. induction pre as [| x pre IH]; intros seen Hpre Hl.
  - cbn [app patch_first]. rewrite Hl.
    replace (length seen) with (length seen + 0)%nat by lia.
    by rewrite insert_app_r.
  - apply Forall_cons in Hpre as [Hx Hpre].
    cbn [app patch_first]. unfold Spec.unrelated in Hx. rewrite Hx.
    specialize (IH (seen ++ [x]) Hpre Hl).
    rewrite length_app in IH. cbn [length] in IH.
    replace (length seen + 1)%nat with (S (length seen)) in IH by lia.
    by rewrite <- !app_assoc in IH.
Qed.

Lemma update_lines_found (params l : string) (pre post : list string) :
  Forall Spec.unrelated pre →
  PyStr.startswith l GRUB_PREFIX = true →
  update_lines params (pre ++ l :: post) = pre ++ assignment_line params :: post.
Proof.
  intros Hpre Hl. unfold update_lines.
  by rewrite (patch_first_found _ l [] pre post Hpre Hl).
Qed.

Lemma update_lines_none (params : string) (lines : list string) :
  Forall Spec.unrelated lines →
  update_lines params lines = lines ++ [assignment_line params].
Proof.
  intros Hall. unfold update_lines. by rewrite patch_first_none.
Qed.

Lemma clear_lines_found (l : string) (pre post : list string) :
  Forall Spec.unrelated pre →
  PyStr.startswith l GRUB_PREFIX = true →
  clear_lines (pre ++ l :: post) = pre ++ assignment_line EmptyString :: post.
Proof.
  intros Hpre Hl. unfold clear_lines.
  by rewrite (patch_first_found _ l [] pre post Hpre Hl).
Qed.

Lemma clear_lines_none (lines : list string) :
  Forall Spec.unrelated lines → clear_lines lines = lines.
Proof. intros Hall. unfold clear_lines. by rewrite patch_first_none. Qed.

(** X2. Writing twice: the second write wins. Patching the lines for
    [p] and then for [q] gives what patching for [q] alone gives; in
    particular the Writer's patch is idempotent, and no second
    assignment line is ever added. *)
Theorem update_lines_last_wins (p q : string) (lines : list string) :
  update_lines q (update_lines p lines) = update_lines q lines.
Proof.
  destruct (update_lines_spec p lines)
    as [(pre & l & post & -> & Hpre & Hl & ->) | [Hnone ->]].
  - rewrite (update_lines_found q l pre post Hpre Hl).
    apply update_lines_found; [assumption | apply assignment_line_starts].
  - rewrite (update_lines_none q lines Hnone).
    apply update_lines_found; [assumption | apply assignment_line_starts].
Qed.

(** X3. Clearing after writing: the Clearer, run on lines the Writer has
    patched, gives the lines the Writer would give for the empty
    parameter string, and clearing a second time changes nothing. *)
Theorem clear_lines_after_update (p : string) (lines : list string) :
  clear_lines (update_lines p lines) = update_lines EmptyString lines ∧
  clear_lines (clear_lines lines) = clear_lines lines.
Proof.
  split.
  - destruct (update_lines_spec p lines)
      as [(pre & l & post & -> & Hpre & Hl & ->) | [Hnone ->]].
    + rewrite (update_lines_found _ l pre post Hpre Hl).
      apply clear_lines_found; [assumption | apply assignment_line_starts].
    + rewrite (update_lines_none _ lines Hnone).
      apply clear_lines_found; [assumption | apply assignment_line_starts].
  - destruct (clear_lines_spec lines)
      as [(pre & l & post & -> & Hpre & Hl & ->) | [Hnone ->]].
    + apply clear_lines_found; [assumption | apply assignment_line_starts].
    + by apply clear_lines_none.
Qed.

(** X4. The number of lines: the Clearer never changes it; the Writer
    keeps it when some line starts with the prefix and adds one line
    otherwise. *)
Theorem patch_line_count (params : string) (lines : list string) :
  length (clear_lines lines) = length lines ∧
  length (update_lines params lines) =
    if existsb (λ l, PyStr.startswith l GRUB_PREFIX) lines
    then length lines else S (length lines).
Proof.
  split.
  - destruct (clear_lines_spec lines)
      as [(pre & l & post & -> & Hpre & Hl & ->) | [Hnone ->]]; [| done].
    by rewrite !length_app.
  - destruct (update_lines_spec params lines)
      as [(pre & l & post & -> & Hpre & Hl & ->) | [Hnone ->]].
    + replace (existsb _ (pre ++ l :: post)) with true; [by rewrite !length_app |].
      symmetry. apply existsb_exists. exists l. split; [| done].
      apply in_or_app. right. by left.
    + replace (existsb _ lines) with false;
        [rewrite length_app; cbn [length]; lia |].
      symmetry. apply not_true_is_false. intros Hex.
      apply existsb_exists in Hex as (x & Hx & Hstart).
      rewrite Forall_forall in Hnone.
      apply list_elem_of_In in Hx. specialize (Hnone x Hx).
      unfold Spec.unrelated in Hnone. congruence.
Qed.

(** ** Text files, read and written back *)

Lemma universal_newlines_no_CR (s : string) :
  no_CR s → universal_newlines s = s.
Proof.
  unfold no_CR. induction s as [| c s IH]; intros Hno; [done |].
  cbn [String.list_ascii_of_string] in Hno.
  apply not_elem_of_cons in Hno as [Hc Hs].
  cbn [universal_newlines].
  destruct (Ascii.eqb_spec c CR) as [-> | _]; [done |].
  by rewrite IH.
Qed.

Lemma writelines_singleton (l : string) : writelines [l] = l.
Proof. reflexivity. Qed.

Lemma splitlines_nonempty (s : string) :
  Forall (λ l, l ≠ EmptyString) (splitlines_keepends s).
Proof.
  induction s as [| c s IH]; [constructor |].
  cbn [splitlines_keepends]. destruct (Ascii.eqb c LF).
  - by constructor.
  - destruct (splitlines_keepends s) as [| l ls].
    + by repeat constructor.
    + apply Forall_cons in IH as [_ IH]. by constructor.
Qed.

(** X5. Reading a text file into lines and writing the lines back
    reproduces the content with its line ends normalised to LF, and
    reproduces it exactly when it holds no carriage return; no line
    read is empty. *)
Theorem readlines_round_trip (content : string) :
  writelines (readlines content) = universal_newlines content ∧
  Forall (λ l, l ≠ EmptyString) (readlines content) ∧
  (no_CR content → writelines (readlines content) = content).
Proof.
  split; [apply writelines_readlines |].
  split; [apply splitlines_nonempty |].
  intros Hno. rewrite writelines_readlines. by apply universal_newlines_no_CR.
Qed.

Lemma readlines_round_trip_witness :
  writelines (readlines (writelines sample_lines)) = writelines sample_lines.
Proof.
  apply (readlines_round_trip (writelines sample_lines)).
  unfold no_CR. vm_compute. intros Hin.
  repeat (apply elem_of_cons in Hin as [Hin | Hin]; [discriminate |]).
  by apply elem_of_nil in Hin.
Defined.

(** X6. When nothing fails and no line of the file starts with the
    prefix, the Writer leaves the configuration file holding its old
    text (line ends normalised) with the assignment line written
    directly behind it: on its own line if the old text ended with a
    line end, on the old last line otherwise. *)
Theorem update_grub_config_appends (env : Env) (params c : string) (w : World) :
  faultless env →
  files w !! grub_config = Some c →
  Forall (λ l, PyStr.startswith l GRUB_PREFIX = false) (readlines c) →
  fst (update_grub_config env params w) = Ok true ∧
  files (snd (update_grub_config env params w)) !! grub_config =
    Some (universal_newlines c +:+ assignment_line params).
Proof.
  intros (Hcp & Hrd & Hwr & Hrg) Hc Hnone.
  rewrite update_grub_config_eq, Hcp, Hc, Hrd, Hwr, Hrg.
  cbv [fst snd logged stored printed files stdout trace].
  split; [reflexivity |]. rewrite lookup_insert_eq.
  rewrite (update_lines_none params _ Hnone), writelines_app.
  by rewrite writelines_readlines, writelines_singleton.
Qed.

Lemma update_grub_config_appends_witness :
  fst (update_grub_config (quiet_env []) "nosmt" bare_world) = Ok true ∧
  files (snd (update_grub_config (quiet_env []) "nosmt" bare_world)) !! grub_config =
    Some (universal_newlines (nl "GRUB_TIMEOUT=5") +:+ assignment_line "nosmt").
Proof.
  apply (update_grub_config_appends (quiet_env []) "nosmt"
           (nl "GRUB_TIMEOUT=5") bare_world).
  - by repeat split.
  - reflexivity.
  - by repeat constructor.
Defined.



(** X8. No rollback: when the copy, the read and the write succeed and
    the regeneration command fails, the Writer returns false although
    the configuration file already holds the patched lines; the old
    content is in the backup. *)
Theorem update_grub_config_no_rollback (env : Env) (params c : string)
    (w : World) (f : fault) :
  cp_fault env = None → read_fault env = None → write_fault env = None →
  regen_fault env = Some f →
  files w !! grub_config = Some c →
  fst (update_grub_config env params w) = Ok false ∧
  files (snd (update_grub_config env params w)) !! grub_config =
    Some (writelines (update_lines params (readlines c))) ∧
  files (snd (update_grub_config env params w)) !! grub_backup = Some c ∧
  stdout (snd (update_grub_config env params w)) =
    stdout w ++ ["Error updating GRUB configuration: " +:+ fmsg f].
Proof.
  intros Hcp Hrd Hwr Hrg Hc.
  rewrite update_grub_config_eq, Hcp, Hc, Hrd, Hwr, Hrg.
  cbv [fst snd logged stored printed files stdout trace].
  split; [reflexivity |]. split; [apply lookup_insert_eq |].
  split; [| reflexivity].
  rewrite lookup_insert_ne by (symmetry; exact backup_is_not_config).
  apply lookup_insert_eq.
Qed.

Lemma update_grub_config_no_rollback_witness :
  fst (update_grub_config regen_fails_env "nosmt" sample_world) = Ok false ∧
  files (snd (update_grub_config regen_fails_env "nosmt" sample_world)) !! grub_config =
    Some (writelines (update_lines "nosmt" (readlines (writelines sample_lines)))) ∧
  files (snd (update_grub_config regen_fails_env "nosmt" sample_world)) !! grub_backup =
    Some (writelines sample_lines) ∧
  stdout (snd (update_grub_config regen_fails_env "nosmt" sample_world)) =
    stdout sample_world ++
    ["Error updating GRUB configuration: " +:+
     "[Errno 2] No such file or directory: 'update-grub'"].
Proof.
  exact (update_grub_config_no_rollback regen_fails_env "nosmt"
           (writelines sample_lines) sample_world _
           eq_refl eq_refl eq_refl eq_refl eq_refl).
Defined.

(** ** Runs of the entry point and the file system *)



(** Where the file system of the final world comes from: it is the
    initial one, or the Clearer's (action disable), or the Writer's
    (action enable, menu confirmed, non-empty parameter string). *)
Lemma run_main_files_cases (env : Env) (argv : list string) (w : World) :
  files (snd (run_main env argv w)) = files w ∨
  (euid env = 0 ∧ ∃ prog rest,
     argv = prog :: "disable" :: rest ∧
     files (snd (run_main env argv w)) =
       files (snd (clear_grub_config env (logged EvGeteuid w)))) ∨
  (euid env = 0 ∧ ∃ prog rest menu w2,
     argv = prog :: "enable" :: rest ∧
     curses_wrapper env (init (core_range_arg rest)) (logged EvGeteuid w) =
       (Ok (true, menu), w2) ∧
     reachable (core_range_arg rest) menu ∧
     files w2 = files w ∧
     PyStr.truthy (Spec.selected_params (core_range menu) (selected menu)) = true ∧
     files (snd (run_main env argv w)) =
       files (snd (update_grub_config env
                     (Spec.selected_params (core_range menu) (selected menu))
                     (printed (MSG_APPLYING
                        (Spec.selected_params (core_range menu) (selected menu)))
                        w2)))).
Proof.
  destruct argv as [| prog [| action rest]].
  1, 2: left; by rewrite run_main_usage by (cbn [length]; lia).
  destruct (decide (euid env = 0)) as [Heuid | Heuid].
  2: { left. by rewrite run_main_not_root. }
  destruct (decide (action = "enable")) as [-> | Hen].
  { rewrite run_main_enable by done.
    pose proof (handle_input_spec _ (tty env) _
                  (logged EvCurses (logged EvGeteuid w))
                  (reach_init (core_range_arg rest))) as Hmenu.
    rewrite <- curses_wrapper_eq in Hmenu.
    destruct (curses_wrapper _ _ _) as [[[b menu] | e |] w2] eqn:Hwrap.
    - destruct Hmenu as [Hreach Hkeys].
      apply menu_world in Hkeys as (Hfiles & _).
      destruct b; [| by left].
      destruct (reachable_ok _ _ Hreach) as [[_ Htot] _].
      rewrite (get_selected_params_spec menu Htot).
      destruct (PyStr.truthy _) eqn:Htruthy; [| by left].
      right. right. split; [done |]. exists prog, rest, menu, w2.
      repeat split; try done.
      destruct (update_grub_config_returns env
                  (Spec.selected_params (core_range menu) (selected menu))
                  (printed (MSG_APPLYING
                     (Spec.selected_params (core_range menu) (selected menu))) w2))
        as (b & w3 & cause & t & -> & _ & _).
      by destruct b.
    - destruct Hmenu as [[-> | [msg ->]] Hkeys];
        apply menu_world in Hkeys as (Hfiles & _); by left.
    - apply menu_world in Hmenu as (Hfiles & _). by left. }
  destruct (decide (action = "disable")) as [-> | Hdis].
  { right. left. split; [done |]. exists prog, rest. split; [done |].
    rewrite run_main_disable by done.
    destruct (clear_grub_config_returns env (logged EvGeteuid w))
      as (b & w2 & cause & t & -> & _ & _).
    by destruct b. }
  left. by rewrite run_main_invalid.
Qed.

(** X9. An action other than enable and disable, given by root: the run
    ends with status 1 after one line that names the action; no file
    has changed, and the privilege query is all that has happened (no
    menu, no file access, no child process). *)
Theorem invalid_action_rejected (env : Env) (prog action : string)
    (rest : list string) (w : World) :
  euid env = 0 → action ≠ "enable" → action ≠ "disable" →
  run_main env (prog :: action :: rest) w =
    (Exited 1,
     {| files := files w;
        stdout := stdout w ++
          ["Error: invalid action '" +:+ action +:+ "' (use enable|disable)"];
        trace := trace w ++ [EvGeteuid] |}).
Proof. intros Heuid Hen Hdis. by rewrite run_main_invalid. Qed.

Lemma invalid_action_rejected_witness :
  run_main (quiet_env []) ["kernel-config"; "bogus"] sample_world =
    (Exited 1,
     {| files := files sample_world;
        stdout := ["Error: invalid action 'bogus' (use enable|disable)"];
        trace := [EvGeteuid] |}).
Proof.
  exact (invalid_action_rejected (quiet_env []) "kernel-config" "bogus" []
           sample_world eq_refl ltac:(discriminate) ltac:(discriminate)).
Defined.

(** X10. The file system changes only in a run by root whose action is
    disable, or whose action is enable with the menu confirmed while at
    least one entry is selected. *)
Theorem files_change_only_on_apply_or_clear (env : Env) (argv : list string)
    (w : World) :
  files (snd (run_main env argv w)) ≠ files w →
  euid env = 0 ∧
  ∃ prog rest,
    argv = prog :: "disable" :: rest ∨
    (argv = prog :: "enable" :: rest ∧
     ∃ menu w2,
       curses_wrapper env (init (core_range_arg rest)) (logged EvGeteuid w) =
         (Ok (true, menu), w2) ∧
       ∃ key, key ∈ PARAM_ORDER ∧ selected menu !! key = Some true).
Proof.
  intros Hchanged.
  destruct (run_main_files_cases env argv w)
    as [Hsame | [(Heuid & prog & rest & -> & _)
               | (Heuid & prog & rest & menu & w2 & -> & Hwrap & _ & _ & Htruthy & _)]].
  - done.
  - split; [done |]. exists prog, rest. by left.
  - split; [done |]. exists prog, rest. right. split; [done |].
    exists menu, w2. split; [done |]. by apply selected_params_truthy in Htruthy.
Qed.

Lemma files_change_only_on_apply_or_clear_witness :
  euid (quiet_env []) = 0 ∧
  ∃ prog rest,
    ["kernel-config"; "disable"] = prog :: "disable" :: rest ∨
    (["kernel-config"; "disable"] = prog :: "enable" :: rest ∧
     ∃ menu w2,
       curses_wrapper (quiet_env []) (init (core_range_arg rest))
         (logged EvGeteuid sample_world) = (Ok (true, menu), w2) ∧
       ∃ key, key ∈ PARAM_ORDER ∧ selected menu !! key = Some true).
Proof.
  apply (files_change_only_on_apply_or_clear (quiet_env [])
           ["kernel-config"; "disable"] sample_world).
  vm_compute. discriminate.
Defined.


Lemma applied_menu_selected : some_selected (selected applied_menu).
Proof. exists "nosmt". split; [| reflexivity]. by repeat constructor. Qed.

(** X12. End to end: when root confirms the menu with at least one entry
    selected and nothing fails, the run ends with status 0 after the
    line with the parameters and the success line; the configuration
    file holds its lines patched with the selected parameters, rendered
    with the core range of the command line, and the backup holds the
    old content. *)
Theorem enable_applies_selection (env : Env) (prog c : string)
    (rest : list string) (w w2 : World) (menu : KernelConfigMenu) :
  euid env = 0 → faultless env →
  files w !! grub_config = Some c →
  curses_wrapper env (init (core_range_arg rest)) (logged EvGeteuid w) =
    (Ok (true, menu), w2) →
  some_selected (selected menu) →
  run_main env (prog :: "enable" :: rest) w =
    (Exited 0,
     {| files :=
          <[grub_config :=
              writelines
                (update_lines
                   (Spec.selected_params (core_range_arg rest) (selected menu))
                   (readlines c))]>
            (<[grub_backup := c]> (files w));
        stdout := stdout w ++
          [ "Applying parameters: " +:+
              Spec.selected_params (core_range_arg rest) (selected menu);
            MSG_INSTALLED ];
        trace := trace w2 ++ [EvRun CP_ARGV; EvOpenRead grub_config;
                              EvOpenWrite grub_config; EvRun REGEN_ARGV] |}).
Proof.
  intros Heuid (Hcp & Hrd & Hwr & Hrg) Hc Hwrap Hsome.
  pose proof (handle_input_spec _ (tty env) _
                (logged EvCurses (logged EvGeteuid w))
                (reach_init (core_range_arg rest))) as Hmenu.
  rewrite <- curses_wrapper_eq, Hwrap in Hmenu. destruct Hmenu as [Hreach Hkeys].
  pose proof Hkeys as (_ & Hout & _).
  apply menu_world in Hkeys as (Hfiles & _).
  destruct (reachable_ok _ _ Hreach) as [[_ Htot] Hcr].
  rewrite run_main_enable, Hwrap, (get_selected_params_spec menu Htot), Hcr by done.
  apply (selected_params_truthy (core_range_arg rest)) in Hsome. rewrite Hsome.
  rewrite update_grub_config_eq, Hcp.
  unfold logged, stored, printed. cbn [files stdout trace].
  rewrite Hfiles, Hc, Hrd, Hwr, Hrg, Hout.
  unfold MSG_APPLYING, printed, logged. cbn [files stdout trace].
  f_equal. f_equal; by rewrite <- ?app_assoc.
Qed.

Lemma enable_applies_selection_witness :
  run_main (quiet_env apply_all_keys) ["kernel-config"; "enable"] sample_world =
    (Exited 0,
     {| files :=
          <[grub_config :=
              writelines
                (update_lines
                   (Spec.selected_params "1-12" (selected applied_menu))
                   (readlines (writelines sample_lines)))]>
            (<[grub_backup := writelines sample_lines]> (files sample_world));
        stdout :=
          [ "Applying parameters: " +:+
              Spec.selected_params "1-12" (selected applied_menu);
            MSG_INSTALLED ];
        trace := trace applied_world ++ [EvRun CP_ARGV; EvOpenRead grub_config;
                                         EvOpenWrite grub_config; EvRun REGEN_ARGV] |}).
Proof.
  refine (enable_applies_selection (quiet_env apply_all_keys) "kernel-config"
            (writelines sample_lines) [] sample_world applied_world applied_menu
            eq_refl _ eq_refl _ applied_menu_selected).
  - by repeat split.
  - vm_compute. reflexivity.
Defined.

(** X13. When root leaves the menu with q or Q, or interrupts it, the
    run ends with status 0 after the one cancellation line (preceded by
    a line break after an interrupt); no file has changed and nothing
    but the terminal session has happened since the privilege query. *)
Theorem enable_cancelled (env : Env) (prog : string) (rest : list string)
    (w w2 : World) :
  euid env = 0 →
  (∀ menu,
     curses_wrapper env (init (core_range_arg rest)) (logged EvGeteuid w) =
       (Ok (false, menu), w2) →
     run_main env (prog :: "enable" :: rest) w =
       (Exited 0,
        {| files := files w; stdout := stdout w ++ ["Configuration cancelled."];
           trace := trace w2 |})) ∧
  (curses_wrapper env (init (core_range_arg rest)) (logged EvGeteuid w) =
     (Raise KeyboardInterrupt, w2) →
   run_main env (prog :: "enable" :: rest) w =
     (Exited 0,
      {| files := files w;
         stdout := stdout w ++ [String LF "Configuration cancelled."];
         trace := trace w2 |})) ∧
  (∀ r, curses_wrapper env (init (core_range_arg rest)) (logged EvGeteuid w) =
          (r, w2) →
        ∃ n : nat, trace w2 = trace w ++ EvGeteuid :: EvCurses :: replicate n EvGetch).
Proof.
  intros Heuid.
  pose proof (handle_input_spec _ (tty env) _
                (logged EvCurses (logged EvGeteuid w))
                (reach_init (core_range_arg rest))) as Hmenu.
  rewrite <- curses_wrapper_eq in Hmenu.
  split; [| split].
  - intros menu Hwrap. rewrite Hwrap in Hmenu. destruct Hmenu as [_ Hkeys].
    pose proof Hkeys as (_ & Hout & _).
    apply menu_world in Hkeys as (Hfiles & _).
    rewrite run_main_enable, Hwrap by done.
    unfold printed. by rewrite Hfiles, Hout.
  - intros Hwrap. rewrite Hwrap in Hmenu. destruct Hmenu as [_ Hkeys].
    pose proof Hkeys as (_ & Hout & _).
    apply menu_world in Hkeys as (Hfiles & _).
    rewrite run_main_enable, Hwrap by done.
    unfold after_raise, printed. by rewrite Hfiles, Hout.
  - intros r Hwrap. rewrite Hwrap in Hmenu.
    assert (only_keys_read (logged EvCurses (logged EvGeteuid w)) w2) as Hkeys.
    { destruct r as [[b menu] | e |]; [apply Hmenu | apply Hmenu | exact Hmenu]. }
    apply menu_world in Hkeys as (_ & n & _ & Htrace). by exists n.
Qed.

Lemma enable_cancelled_witness :
  run_main (quiet_env [Key KEY_DOWN 24; Key ord_q 24]) ["kernel-config"; "enable"]
    sample_world =
    (Exited 0,
     {| files := files sample_world; stdout := ["Configuration cancelled."];
        trace := [EvGeteuid; EvCurses; EvGetch; EvGetch] |}).
Proof.
  refine (proj1 (enable_cancelled (quiet_env [Key KEY_DOWN 24; Key ord_q 24])
                   "kernel-config" [] sample_world
                   {| files := files sample_world; stdout := [];
                      trace := [EvGeteuid; EvCurses; EvGetch; EvGetch] |}
                   eq_refl)
            {| core_range := "1-12"; selected := selected (init "1-12");
               current := 1; offset := 0 |} _).
  vm_compute. reflexivity.
Defined.

(** X14. Arguments the entry point does not look at: the program name
    never matters; with action disable everything after the action is
    ignored; with action enable a missing core range stands for 1-12
    and everything after the core range is ignored. *)
Theorem arguments_ignored (env : Env) (prog : string) (rest : list string)
    (w : World) :
  (∀ prog' args, run_main env (prog :: args) w = run_main env (prog' :: args) w) ∧
  run_main env (prog :: "disable" :: rest) w = run_main env [prog; "disable"] w ∧
  run_main env [prog; "enable"] w = run_main env [prog; "enable"; "1-12"] w ∧
  (∀ cr, run_main env (prog :: "enable" :: cr :: rest) w =
         run_main env [prog; "enable"; cr] w).
Proof.
  destruct (decide (euid env = 0)) as [Heuid | Heuid].
  - split; [| split; [| split]].
    + intros prog' [| action args].
      * by rewrite !run_main_usage by (cbn [length]; lia).
      * destruct (decide (action = "enable")) as [-> | Hen];
          [by rewrite !run_main_enable by done |].
        destruct (decide (action = "disable")) as [-> | Hdis];
          [by rewrite !run_main_disable by done |].
        by rewrite !run_main_invalid by done.
    + by rewrite !run_main_disable by done.
    + by rewrite !run_main_enable by done.
    + intros cr. by rewrite !run_main_enable by done.
  - split; [| split; [| split]].
    + intros prog' [| action args].
      * by rewrite !run_main_usage by (cbn [length]; lia).
      * by rewrite !run_main_not_root by done.
    + by rewrite !run_main_not_root by done.
    + by rewrite !run_main_not_root by done.
    + intros cr. by rewrite !run_main_not_root by done.
Qed.

(** ** More on the menu loop *)

(** What one handled key does to the scroll offset. *)
Lemma handle_key_offset (height key : Z) (m m' : KernelConfigMenu) :
  handle_key height key m = Ok (Continue m') →
  0 ≤ current m ≤ N_PARAMS →
  (0 ≤ offset m → 0 ≤ offset m') ∧
  (1 ≤ height - 6 → offset m ≤ current m < offset m + (height - 6) →
   offset m' ≤ current m' < offset m' + (height - 6)).
Proof.
  unfold handle_key. intros Hstep Hcur.
  assert (HN : N_PARAMS = 11) by reflexivity.
  destruct (key =? KEY_UP).
  { injection Hstep as <-. cbn [current offset].
    destruct (Z.ltb_spec (0 `max` (current m - 1)) (offset m)); lia. }
  destruct (key =? KEY_DOWN).
  { injection Hstep as <-. cbn [current offset]. fold N_PARAMS.
    destruct (Z.geb_spec (N_PARAMS `min` (current m + 1))
                (offset m + (height - 6))); lia. }
  destruct ((key =? ord_space) && (current m <? N_PARAMS)).
  { destruct (list_get PARAM_ORDER (current m)) as [k | |]; try discriminate.
    rewrite res_bind_Ok in Hstep.
    destruct (dict_get (selected m) k) as [old | |]; try discriminate.
    rewrite res_bind_Ok in Hstep. injection Hstep as <-. by cbn [current offset]. }
  destruct ((key =? ord_newline) || (key =? KEY_ENTER)).
  { destruct (current m =? N_PARAMS); [discriminate |].
    injection Hstep as <-. done. }
  destruct ((key =? ord_q) || (key =? ord_Q)); [discriminate |].
  injection Hstep as <-. done.
Qed.

Lemma handle_key_return_true (height key : Z) (m : KernelConfigMenu) :
  menu_ok m → handle_key height key m = Ok (Return true) →
  current m = N_PARAMS ∧ (key = ord_newline ∨ key = KEY_ENTER).
Proof.
  intros Hok Hstep. pose proof (handle_key_spec height key m Hok) as Hspec.
  rewrite Hstep in Hspec. destruct Hspec as [(_ & ? & ?) | [? _]]; done.
Qed.

(** X15. The loop returns True only with the focus on the Apply row:
    whatever keys are typed, if [handle_input] returns True the menu it
    leaves has its focus index at N, one past the last parameter. *)
Theorem handle_input_apply_row (cr : string) (evs : list tty_event)
    (m m' : KernelConfigMenu) (w w' : World) :
  reachable cr m →
  handle_input evs m w = (Ok (true, m'), w') →
  current m' = N_PARAMS.
Proof.
  revert m w. induction evs as [| ev evs IH]; intros m w Hreach Hrun.
  - discriminate.
  - destruct ev as [key height | | msg]; cbn [handle_input] in Hrun;
      [| discriminate | discriminate].
    revert Hrun. run_M.
    destruct (handle_key height key m) as [[m1 | b] | e |] eqn:Hstep;
      [| | discriminate | discriminate].
    + intros Hrun. exact (IH m1 _ (reach_step cr m m1 _ _ Hreach Hstep) Hrun).
    + intros [= -> -> _].
      apply (handle_key_return_true height key m'); [| done].
      by apply (reachable_ok cr).
Qed.

Lemma handle_input_apply_row_witness : current applied_menu = N_PARAMS.
Proof.
  refine (handle_input_apply_row "1-12" apply_all_keys (init "1-12") applied_menu
            (logged EvCurses (logged EvGeteuid sample_world)) applied_world
            (reach_init "1-12") _).
  vm_compute. reflexivity.
Defined.

Lemma dom_foldl_insert (b : bool) (keys : list string) (d : gmap string bool) :
  dom (foldl (λ d key, <[key := b]> d) d keys) = dom d ∪ list_to_set keys.
Proof.
  revert d. induction keys as [| key keys IH]; intros d; cbn [foldl].
  - by rewrite list_to_set_nil, (right_id_L ∅ (∪)).
  - rewrite IH, dom_insert_L, list_to_set_cons.
    by rewrite (comm_L (∪) {[key]} (dom d)), <- (assoc_L (∪)).
Qed.

(** X16. What the loop never changes: in every menu it can reach the
    selection has exactly the keys of the catalog (a toggle neither
    adds nor removes one), the core range is the one the menu was
    created with, and the scroll offset is not negative. *)
Theorem menu_invariants (cr : string) (m : KernelConfigMenu) :
  reachable cr m →
  dom (selected m) = list_to_set PARAM_ORDER ∧
  core_range m = cr ∧
  0 ≤ offset m.
Proof.
  induction 1 as [| m m' height key Hreach (IHdom & IHcr & IHoff) Hstep].
  - split; [| by split]. cbn [init selected].
    by rewrite dom_foldl_insert, dom_empty_L, (left_id_L ∅ (∪)).
  - destruct (reachable_ok cr m Hreach) as [Hok _].
    pose proof (handle_key_spec height key m Hok) as Hspec.
    rewrite Hstep in Hspec.
    destruct Hspec as (_ & Hcr & Hup & Hdown & Hspace & Hother).
    split; [| split; [congruence |]].
    + destruct (decide (key = KEY_UP)) as [Hk | Hnup];
        [destruct (Hup Hk) as [_ ->]; done |].
      destruct (decide (key = KEY_DOWN)) as [Hk | Hndown];
        [destruct (Hdown Hk) as [_ ->]; done |].
      destruct (decide (key = ord_space)) as [Hk | Hnspace];
        [| by rewrite (Hother Hnup Hndown Hnspace)].
      destruct (Hspace Hk) as (_ & Hsel & _).
      destruct (PARAM_ORDER !! Z.to_nat (current m)) as [focused |];
        [| by rewrite Hsel].
      destruct Hsel as [(old & Hold & Hnew) Hrest].
      rewrite <- IHdom. apply set_eq. intros k. rewrite !elem_of_dom.
      destruct (decide (k = focused)) as [-> | Hne].
      * rewrite Hold, Hnew. split; eauto.
      * by rewrite (Hrest k Hne).
    + destruct Hok as [Hcur _].
      by apply (handle_key_offset height key m m' Hstep Hcur).
Qed.

Lemma menu_invariants_witness :
  dom (selected toggled_menu) = list_to_set PARAM_ORDER ∧
  core_range toggled_menu = "1-12" ∧
  0 ≤ offset toggled_menu.
Proof.
  exact (menu_invariants "1-12" toggled_menu toggled_menu_reachable).
Defined.

Lemma handle_input_window (height : Z) (cr : string) (evs : list tty_event)
    (m m' : KernelConfigMenu) (w w' : World) (b : bool) :
  1 ≤ height - 6 →
  at_height height evs →
  reachable cr m → window_ok height m →
  handle_input evs m w = (Ok (b, m'), w') →
  window_ok height m'.
Proof.
  intros Hheight. revert m w.
  induction evs as [| ev evs IH]; intros m w Hat Hreach Hwin Hrun.
  - discriminate.
  - apply Forall_cons in Hat as [Hev Hat].
    destruct ev as [key h | | msg]; cbn [handle_input] in Hrun;
      [| discriminate | discriminate].
    subst h. revert Hrun. run_M.
    destruct (handle_key height key m) as [[m1 | b1] | e |] eqn:Hstep;
      [| | discriminate | discriminate].
    + intros Hrun.
      apply (IH m1 (logged EvGetch w) Hat (reach_step cr m m1 _ _ Hreach Hstep));
        [| done].
      destruct (reachable_ok cr m Hreach) as [[Hcur _] _].
      destruct Hwin as [Hoff Hwin].
      destruct (handle_key_offset height key m m1 Hstep Hcur) as [H0 H1].
      split; [by apply H0 | by apply H1].
    + by intros [= _ <- _].
Qed.

(** X17. The focus stays visible: on a terminal that keeps a height of
    at least seven rows (so that the list has at least one row),
    whatever keys are typed, the menu the loop leaves has its scroll
    offset at most at the focus index and the focus index within the
    [height - 6] rows that start at the offset. *)
Theorem focus_stays_visible (height : Z) (cr : string) (evs : list tty_event)
    (m' : KernelConfigMenu) (w w' : World) (b : bool) :
  7 ≤ height →
  at_height height evs →
  handle_input evs (init cr) w = (Ok (b, m'), w') →
  0 ≤ offset m' ∧ offset m' ≤ current m' < offset m' + (height - 6).
Proof.
  intros Hheight Hat Hrun.
  apply (handle_input_window height cr evs (init cr) m' w w' b);
    [lia | done | apply reach_init | | done].
  split; cbn [init offset current]; lia.
Qed.

Lemma focus_stays_visible_witness :
  0 ≤ offset scrolled_menu ∧
  offset scrolled_menu ≤ current scrolled_menu < offset scrolled_menu + (10 - 6).
Proof.
  refine (focus_stays_visible 10 "1-12" scroll_keys scrolled_menu
            sample_world
            {| files := files sample_world; stdout := [];
               trace := replicate 21 EvGetch |}
            true _ _ _).
  - lia.
  - unfold at_height, scroll_keys. by repeat constructor.
  - vm_compute. reflexivity.
Defined.

(** ** Drawing the menu *)

Lemma string_length_append (a b : string) :
  String.length (a +:+ b) = (String.length a + String.length b)%nat.
Proof.
  induction a as [| c a IH]; [reflexivity |].
  rewrite append_cons. cbn [String.length]. by rewrite IH.
Qed.

Lemma string_length_substring (n : nat) (s : string) :
  String.length (String.substring 0 n s) = Nat.min n (String.length s).
Proof.
  revert n. induction s as [| c s IH]; intros [| n]; cbn; try done.
  by rewrite IH.
Qed.

Lemma len_append (a b : string) :
  PyFmt.len (a +:+ b) = PyFmt.len a + PyFmt.len b.
Proof. unfold PyFmt.len. rewrite string_length_append. lia. Qed.

Lemma len_slice_to (s : string) (stop : Z) :
  PyFmt.len (PyFmt.slice_to s stop) =
    if stop <? 0 then Z.max 0 (PyFmt.len s + stop) else Z.min stop (PyFmt.len s).
Proof.
  unfold PyFmt.slice_to. unfold PyFmt.len at 1.
  rewrite string_length_substring. fold (PyFmt.len s).
  assert (0 ≤ PyFmt.len s) by (unfold PyFmt.len; lia).
  unfold PyFmt.len in *. destruct (Z.ltb_spec stop 0); lia.
Qed.

(** X18. What is written fits the width it is cut for. A list row for a
    parameter is never longer than [width - 2] when the terminal is at
    least two columns wide. The text of the info panel is never longer
    than [width - 4] when the terminal is at least seven columns wide;
    on a narrower terminal a text that is too long is not shortened to
    fit: what is written is still longer than [width - 4]. *)
Theorem drawn_text_width (checked : bool)
    (key description template explanation cr : string) (width : Z) :
  (2 ≤ width →
   PyFmt.len (format_item_line checked key description width) ≤ width - 2) ∧
  (7 ≤ width →
   PyFmt.len (format_info_text template explanation cr width) ≤ width - 4) ∧
  (width < 7 →
   PyFmt.len (PyStr.replace template "{CORES}" cr +:+ ": " +:+ explanation) >
     width - 4 →
   PyFmt.len (format_info_text template explanation cr width) > width - 4).
Proof.
  split; [| split].
  - intros Hwidth. unfold format_item_line. rewrite len_slice_to.
    destruct (Z.ltb_spec (width - 2) 0); lia.
  - intros Hwidth. unfold format_info_text.
    destruct (Z.gtb_spec
                (PyFmt.len (PyStr.replace template "{CORES}" cr +:+ ": " +:+ explanation))
                (width - 4)) as [Hlong | Hshort]; [| lia].
    rewrite len_append, len_slice_to.
    destruct (Z.ltb_spec (width - 7) 0); [lia |].
    change (PyFmt.len "...") with 3. lia.
  - intros Hwidth Hlong. unfold format_info_text.
    destruct (Z.gtb_spec
                (PyFmt.len (PyStr.replace template "{CORES}" cr +:+ ": " +:+ explanation))
                (width - 4)) as [_ | Hshort]; [| lia].
    rewrite len_append, len_slice_to.
    destruct (Z.ltb_spec (width - 7) 0); [| lia].
    change (PyFmt.len "...") with 3. lia.
Qed.

Lemma drawn_text_width_witness :
  PyFmt.len (format_info_text "rcu_nocbs={CORES}"
               "Reduces CPU overhead by moving RCU grace period handling to other cores."
               "1-12" 40) ≤ 40 - 4.
Proof.
  apply (drawn_text_width true "rcu_nocbs" "Move RCU callbacks off isolated cores"
           "rcu_nocbs={CORES}"
           "Reduces CPU overhead by moving RCU grace period handling to other cores."
           "1-12" 40).
  lia.
Defined.
















Lemma get_selected_params_loop_app (cr : string) (sel : gmap string bool)
    (pre rest params : list string) :
  (∀ key, key ∈ pre → is_Some (sel !! key) ∧ is_Some (KERNEL_PARAMS !! key)) →
  get_selected_params_loop cr sel (pre ++ rest) params =
  get_selected_params_loop cr sel rest
    (params ++ (Spec.render cr <$> filter (λ key, sel !! key = Some true) pre)).
Proof.
  revert params. induction pre as [| key pre IH]; intros params Hpre.
  - cbn [app filter list_filter fmap list_fmap]. by rewrite app_nil_r.
  - destruct (Hpre key) as [[b Hb] [p Hp]]; [left |].
    assert (Hrest : ∀ k, k ∈ pre →
              is_Some (sel !! k) ∧ is_Some (KERNEL_PARAMS !! k))
      by (intros k Hk; apply Hpre; by right).
    cbn [app get_selected_params_loop].
    rewrite (dict_get_Some _ _ _ Hb), res_bind_Ok. destruct b.
    + rewrite (dict_get_Some _ _ _ Hp), res_bind_Ok, (IH _ Hrest).
      rewrite filter_cons_True by assumption.
      rewrite fmap_cons, <- app_assoc. cbn [app].
      unfold Spec.render at 2, Spec.template. by rewrite Hp.
    + rewrite (IH _ Hrest).
      rewrite filter_cons_False; [done | by rewrite Hb].
Qed.

Lemma dict_get_None {V} (d : gmap string V) (k : string) :
  d !! k = None → dict_get d k = Raise (KeyError k).
Proof. intros H. unfold dict_get. by rewrite H. Qed.

(** X22. A selection state that lacks a catalog key: [get_selected_params]
    raises [KeyError] for the first key of [PARAM_ORDER] that has no
    entry, whatever the entries of the later keys are. *)
Theorem get_selected_params_missing_key (m : KernelConfigMenu)
    (pre post : list string) (key : string) :
  PARAM_ORDER = pre ++ key :: post →
  (∀ k, k ∈ pre → is_Some (selected m !! k)) →
  selected m !! key = None →
  get_selected_params m = Raise (KeyError key).
Proof.
  intros Horder Hpre Hkey. unfold get_selected_params. rewrite Horder.
  rewrite get_selected_params_loop_app.
  - cbn [get_selected_params_loop]. by rewrite (dict_get_None _ _ Hkey).
  - intros k Hk. split; [by apply Hpre |].
    apply catalog_total. rewrite Horder. apply elem_of_app. by left.
Qed.

Lemma get_selected_params_missing_key_witness :
  get_selected_params broken_menu = Raise (KeyError "nosmt").
Proof.
  apply (get_selected_params_missing_key broken_menu
           ["isolcpus"; "nohz_full"; "rcu_nocbs"; "housekeeping"; "intel_pstate"]
           ["intel_idle_cstate"; "processor_cstate"; "mitigations";
            "intel_iommu"; "iommu"]).
  - reflexivity.
  - apply Forall_forall. repeat constructor; vm_compute; eexists; reflexivity.
  - vm_compute. reflexivity.
Defined.
